(** * rekognition-patient-id: the two Lambda handlers

    A shallow embedding of [build-register/register_patient.py] and
    [build-identify/identify_patient.py], and the properties of their
    request/response contract.

    The handlers are dynamically typed glue around two boto3 clients, so the
    embedding keeps Python's values as they are ([pyval]), Python's
    exceptions as an error result ([outcome]), and the calls to the
    Rekognition and DynamoDB clients and to the clock as the nodes of a
    program tree ([prog]) that is run against an arbitrary [world].

    Part I holds the model and the vocabulary of the properties, Part II the
    proofs. *)

From Stdlib Require Import ZArith NArith List String Ascii Bool.
From Stdlib Require Import Strings.Byte PrimFloat DecimalString.
Import ListNotations.
Open Scope string_scope.
Open Scope Z_scope.
Set Warnings "-register-all".

(** * Part I: the model *)

(** ** Python values *)

(** The values that reach the handlers: what [json.loads] and boto3 produce
    (None, bool, int, float, str, list, dict with string keys) and [bytes],
    which [base64.b64decode] returns and DynamoDB binary attributes hold.
    A dict is the list of its entries in insertion order. *)
Inductive pyval : Type :=
| PyNone
| PyBool (b : bool)
| PyInt (n : Z)
| PyFloat (x : float)
| PyStr (s : string)
| PyBytes (b : list byte)
| PyList (l : list pyval)
| PyDict (d : list (string * pyval)).

Definition dict : Type := list (string * pyval).

(** An instance of [Exception], which is what [except Exception] catches:
    its class and the text [str(e)] gives.  ([KeyboardInterrupt] and
    [SystemExit] are no [Exception] and stay outside the model.) *)
Record exn : Type := Exception { exn_class : string; exn_text : string }.

(** [str(e)] *)
Definition str_exn (e : exn) : string := exn_text e.

Inductive outcome (A : Type) : Type :=
| Return (a : A)
| Raise (e : exn).
Arguments Return {A} a.
Arguments Raise {A} e.

Module Py.

(** [type(o).__name__] *)
Definition type_name (o : pyval) : string :=
  match o with
  | PyNone => "NoneType"
  | PyBool _ => "bool"
  | PyInt _ => "int"
  | PyFloat _ => "float"
  | PyStr _ => "str"
  | PyBytes _ => "bytes"
  | PyList _ => "list"
  | PyDict _ => "dict"
  end.

(** [KeyError(key)] for a string key free of quotes and escapes, which is
    what the handlers subscript with: [str(e)] is [repr(key)]. *)
Definition KeyError (key : string) : exn :=
  Exception "KeyError" ("'" ++ key ++ "'").

Definition TypeError (msg : string) : exn := Exception "TypeError" msg.
Definition IndexError (msg : string) : exn := Exception "IndexError" msg.

Definition AttributeError (o : pyval) (attr : string) : exn :=
  Exception "AttributeError"
    ("'" ++ type_name o ++ "' object has no attribute '" ++ attr ++ "'").

Definition not_subscriptable (o : pyval) : exn :=
  TypeError ("'" ++ type_name o ++ "' object is not subscriptable").

(** Truth value, as [not x], [x or y] and [if x] take it. *)
Definition truthy (o : pyval) : bool :=
  match o with
  | PyNone => false
  | PyBool b => b
  | PyInt n => negb (n =? 0)
  | PyFloat x => negb (PrimFloat.eqb x 0%float)
  | PyStr s => negb (String.eqb s "")
  | PyBytes b => match b with [] => false | _ => true end
  | PyList l => match l with [] => false | _ => true end
  | PyDict d => match d with [] => false | _ => true end
  end.

(** [isinstance(o, str)] *)
Definition isinstance_str (o : pyval) : bool :=
  match o with PyStr _ => true | _ => false end.

(** [x or y] *)
Definition or_ (x y : pyval) : pyval := if truthy x then x else y.

(** Lookup in a dict's entries. *)
Fixpoint lookup (key : string) (d : dict) : option pyval :=
  match d with
  | [] => None
  | (k, v) :: rest => if String.eqb k key then Some v else lookup key rest
  end.

(** [d[key] = v]: the entry is replaced where it stands, a new key goes
    last. *)
Fixpoint setitem (d : dict) (key : string) (v : pyval) : dict :=
  match d with
  | [] => [(key, v)]
  | (k, x) :: rest =>
      if String.eqb k key then (k, v) :: rest else (k, x) :: setitem rest key v
  end.

(** [o.get(key, default)] *)
Definition get (o : pyval) (key : string) (default : pyval) : outcome pyval :=
  match o with
  | PyDict d => Return (match lookup key d with Some v => v | None => default end)
  | _ => Raise (AttributeError o "get")
  end.

(** [o[key]] for a string key. *)
Definition getitem (o : pyval) (key : string) : outcome pyval :=
  match o with
  | PyDict d =>
      match lookup key d with
      | Some v => Return v
      | None => Raise (KeyError key)
      end
  | PyList _ => Raise (TypeError "list indices must be integers or slices, not str")
  | PyStr _ => Raise (TypeError "string indices must be integers, not 'str'")
  | PyBytes _ => Raise (TypeError "byte indices must be integers or slices, not str")
  | _ => Raise (not_subscriptable o)
  end.

(** [o[0]] *)
Definition getitem0 (o : pyval) : outcome pyval :=
  match o with
  | PyList (x :: _) => Return x
  | PyList [] => Raise (IndexError "list index out of range")
  | PyStr (String c _) => Return (PyStr (String c EmptyString))
  | PyStr EmptyString => Raise (IndexError "string index out of range")
  | PyBytes (b :: _) => Return (PyInt (Z.of_N (Byte.to_N b)))
  | PyBytes [] => Raise (IndexError "index out of range")
  | PyDict d => Raise (Exception "KeyError" "0")
  | _ => Raise (not_subscriptable o)
  end.

(** [o.items()] *)
Definition items (o : pyval) : outcome (list (string * pyval)) :=
  match o with
  | PyDict d => Return d
  | _ => Raise (AttributeError o "items")
  end.

(** [list(o.values())] *)
Definition values (o : pyval) : outcome (list pyval) :=
  match o with
  | PyDict d => Return (map snd d)
  | _ => Raise (AttributeError o "values")
  end.

(** [str(n)] for an int. *)
Definition str_int (n : Z) : string := NilZero.string_of_int (Z.to_int n).

End Py.

(** ** json.dumps *)

(** The JSON text of a value.  The handlers build it and never read it, and
    on the values it accepts [json.dumps] is one-to-one, so the text is kept
    as the value it was made from. *)
Inductive json_text : Type := JsonText (obj : pyval).

Module json.

(** What the default encoder accepts: everything of [pyval] but bytes. *)
Fixpoint serializable (o : pyval) : bool :=
  match o with
  | PyBytes _ => false
  | PyList l => forallb serializable l
  | PyDict d => forallb (fun kv => serializable (snd kv)) d
  | _ => true
  end.

Definition dumps (obj : pyval) : outcome json_text :=
  if serializable obj then Return (JsonText obj)
  else Raise (Py.TypeError "Object of type bytes is not JSON serializable").

End json.

(** ** base64.b64decode *)

(** CPython's decoder as the handlers call it (no [altchars], [validate]
    left False): [binascii.a2b_base64] in its lenient mode behind
    [base64._bytes_from_decode_data]. *)
Module binascii.

Definition Error (msg : string) : exn := Exception "binascii.Error" msg.

(** [table_a2b_base64]: the 6-bit value of an alphabet character. *)
Definition table_a2b_base64 (c : ascii) : option N :=
  let n := N_of_ascii c in
  (if (65 <=? n) && (n <=? 90) then Some (n - 65)
   else if (97 <=? n) && (n <=? 122) then Some (n - 71)
   else if (48 <=? n) && (n <=? 57) then Some (n + 4)
   else if n =? 43 then Some 62
   else if n =? 47 then Some 63
   else None)%N.

Definition to_byte (n : N) : byte := byte_of_ascii (ascii_of_N n).

(** The decoding loop and what follows it.  [out] is the output so far;
    [quad_pos], [leftchar] and [pads] are the C function's locals.  A pad
    sequence that completes a quad stops the decoding; characters outside
    the alphabet are skipped. *)
Fixpoint a2b_loop (data : list ascii) (quad_pos leftchar pads : N)
                  (out : list byte) : outcome (list byte) :=
  match data with
  | [] =>
      if quad_pos =? 0 then Return out
      else if quad_pos =? 1 then
        Raise (Error ("Invalid base64-encoded string: number of data characters ("
                      ++ NilZero.string_of_uint (N.to_uint (N.of_nat (List.length out) / 3 * 4 + 1))
                      ++ ") cannot be 1 more than a multiple of 4"))
      else Raise (Error "Incorrect padding")
  | this_ch :: rest =>
      if Ascii.eqb this_ch "="%char then
        if 2 <=? quad_pos then
          if 4 <=? quad_pos + (pads + 1) then Return out
          else a2b_loop rest quad_pos leftchar (pads + 1) out
        else a2b_loop rest quad_pos leftchar pads out
      else
        match table_a2b_base64 this_ch with
        | None => a2b_loop rest quad_pos leftchar pads out
        | Some v =>
            if quad_pos =? 0 then a2b_loop rest 1 v 0 out
            else if quad_pos =? 1 then
              a2b_loop rest 2 (N.land v 15) 0
                (out ++ [to_byte (N.lor (N.shiftl leftchar 2) (N.shiftr v 4))])%list
            else if quad_pos =? 2 then
              a2b_loop rest 3 (N.land v 3) 0
                (out ++ [to_byte (N.lor (N.shiftl leftchar 4) (N.shiftr v 2))])%list
            else
              a2b_loop rest 0 0 0
                (out ++ [to_byte (N.lor (N.shiftl leftchar 6) v)])%list
        end
  end%N.

Definition a2b_base64 (data : list ascii) : outcome (list byte) :=
  a2b_loop data 0 0 0 [].

End binascii.

Module base64.

(** [_bytes_from_decode_data]: an ASCII str or a bytes object. *)
Definition _bytes_from_decode_data (s : pyval) : outcome (list ascii) :=
  match s with
  | PyStr t =>
      let cs := list_ascii_of_string t in
      if forallb (fun c => (N_of_ascii c <? 128)%N) cs then Return cs
      else Raise (Exception "ValueError"
                    "string argument should contain only ASCII characters")
  | PyBytes b => Return (map ascii_of_byte b)
  | _ => Raise (Py.TypeError
                  ("argument should be a bytes-like object or ASCII string, not '"
                   ++ Py.type_name s ++ "'"))
  end.

Definition b64decode (s : pyval) : outcome (list byte) :=
  match _bytes_from_decode_data s with
  | Return data => binascii.a2b_base64 data
  | Raise e => Raise e
  end.

End base64.

(** ** Calls out of the handler *)

(** The boto3 operations the handlers use, on the module-level clients
    [reko] and [ddb]. *)
Inductive api : Type :=
| reko_index_faces
| reko_search_faces_by_image
| ddb_put_item
| ddb_query.

(** A client call with its keyword arguments. *)
Record call : Type := Invoke { call_api : api; kwargs : dict }.

(** A handler as a tree: it ends with a result, or calls a client and goes
    on with what the client returned or raised, or reads the clock
    ([int(time.time()*1000)], the reading in whole milliseconds) and goes on
    with the reading. *)
Inductive prog (A : Type) : Type :=
| Ret (a : A)
| Call (c : call) (k : outcome pyval -> prog A)
| Now (k : Z -> prog A).
Arguments Ret {A} a.
Arguments Call {A} c k.
Arguments Now {A} k.

(** A computation that may raise. *)
Definition action (A : Type) : Type := prog (outcome A).

Definition pure {A} (o : outcome A) : action A := Ret o.

Definition invoke (f : api) (args : dict) : action pyval :=
  Call (Invoke f args) (fun r => Ret r).

Fixpoint bind {A B} (m : action A) (f : A -> action B) : action B :=
  match m with
  | Ret (Return a) => f a
  | Ret (Raise e) => Ret (Raise e)
  | Call c k => Call c (fun r => bind (k r) f)
  | Now k => Now (fun t => bind (k t) f)
  end.

(** [try: m  except Exception as e: h e] *)
Fixpoint try_except {A} (m : action A) (h : exn -> action A) : action A :=
  match m with
  | Ret (Return a) => Ret (Return a)
  | Ret (Raise e) => h e
  | Call c k => Call c (fun r => try_except (k r) h)
  | Now k => Now (fun t => try_except (k t) h)
  end.

Notation "x <- m ;; k" := (bind m (fun x => k))
  (at level 100, m at next level, right associativity).

(** ** The world a handler runs in *)

(** What one invocation did, in order: each client call with its result,
    each clock reading. *)
Inductive entry : Type :=
| Called (c : call) (r : outcome pyval)
| Clock (t : Z).

(** The collaborators and the clock.  Both answer from everything that
    happened in the invocation so far, so a world is any behaviour at all:
    it may return anything and may raise on any call. *)
Record world : Type := World {
  respond : list entry -> call -> outcome pyval;
  time_ms : list entry -> Z
}.

Fixpoint run {A} (w : world) (h : list entry) (p : prog A) : A * list entry :=
  match p with
  | Ret a => (a, h)
  | Call c k =>
      let r := respond w h c in
      run w (h ++ [Called c r]) (k r)
  | Now k =>
      let t := time_ms w h in
      run w (h ++ [Clock t]) (k t)
  end.

(** One invocation: the handler's result and the trace it left. *)
Definition invocation {A} (w : world) (p : prog A) : A * list entry := run w [] p.

(** ** The response of a handler *)

Record response : Type := Response {
  statusCode : Z;
  headers : list (string * string);
  body : json_text
}.

(** ** build-register/register_patient.py *)

Module register_patient.
Section Handler.

(** [json.loads], left open: any decoder. *)
Variable json_loads : string -> outcome pyval.

(** [os.environ['COLLECTION_ID']], [os.environ['TABLE_NAME']] *)
Variables COLLECTION_ID TABLE_NAME : string.

Definition _now_ms : action Z := Now (fun t => Ret (Return t)).

Definition _resp (code : Z) (obj : pyval) : outcome response :=
  match json.dumps obj with
  | Return text =>
      Return {| statusCode := code;
                headers := [("Content-Type", "application/json")];
                body := text |}
  | Raise e => Raise e
  end.

(** The [try] block of [handler]. *)
Definition handler_try (event context : pyval) : action response :=
  body_raw <- pure (Py.get event "body" PyNone) ;;
  body <- pure (match body_raw with
                | PyStr s => json_loads s
                | _ => Return (Py.or_ body_raw (PyDict []))
                end) ;;
  image_b64 <- pure (Py.getitem body "image_base64") ;;
  patient_id <- pure (Py.getitem body "patient_id") ;;
  attrs <- pure (Py.get body "attributes" (PyDict [])) ;;
  img_bytes <- pure (base64.b64decode image_b64) ;;
  idx <- invoke reko_index_faces
           [("CollectionId", PyStr COLLECTION_ID);
            ("Image", PyDict [("Bytes", PyBytes img_bytes)]);
            ("ExternalImageId", patient_id);
            ("DetectionAttributes", PyList [PyStr "DEFAULT"]);
            ("MaxFaces", PyInt 1);
            ("QualityFilter", PyStr "AUTO")] ;;
  face_records <- pure (Py.get idx "FaceRecords" PyNone) ;;
  if negb (Py.truthy face_records) then
    pure (_resp 422 (PyDict [("message", PyStr "No face detected or poor quality.")]))
  else
    records <- pure (Py.getitem idx "FaceRecords") ;;
    record <- pure (Py.getitem0 records) ;;
    face <- pure (Py.getitem record "Face") ;;
    face_id <- pure (Py.getitem face "FaceId") ;;
    created <- _now_ms ;;
    updated <- _now_ms ;;
    let item :=
      [("patient_id", PyDict [("S", patient_id)]);
       ("face_id", PyDict [("S", face_id)]);
       ("created_at", PyDict [("N", PyStr (Py.str_int created))]);
       ("updated_at", PyDict [("N", PyStr (Py.str_int updated))])] in
    entries <- pure (Py.items attrs) ;;
    let item :=
      fold_left
        (fun item kv =>
           let '(k, v) := kv in
           if Py.isinstance_str v then Py.setitem item k (PyDict [("S", v)])
           else item)
        entries item in
    _ <- invoke ddb_put_item
           [("TableName", PyStr TABLE_NAME); ("Item", PyDict item)] ;;
    pure (_resp 201 (PyDict [("patient_id", patient_id); ("face_id", face_id)])).

Definition handler (event context : pyval) : action response :=
  try_except (handler_try event context)
    (fun e => pure (_resp 500 (PyDict [("error", PyStr (str_exn e))]))).

End Handler.
End register_patient.

(** ** build-identify/identify_patient.py *)

Module identify_patient.
Section Handler.

Variable json_loads : string -> outcome pyval.

(** [os.environ['COLLECTION_ID']], [os.environ['TABLE_NAME']] and
    [float(os.environ.get('MATCH_THRESHOLD','95'))] *)
Variables COLLECTION_ID TABLE_NAME : string.
Variable THRESHOLD : float.

Definition _resp (code : Z) (obj : pyval) : outcome response :=
  match json.dumps obj with
  | Return text =>
      Return {| statusCode := code;
                headers := [("Content-Type", "application/json")];
                body := text |}
  | Raise e => Raise e
  end.

(** [{k: list(v.values())[0] for k,v in item.items()}], entry by entry. *)
Fixpoint flatten (entries : list (string * pyval)) (result : dict) : outcome dict :=
  match entries with
  | [] => Return result
  | (k, v) :: rest =>
      match Py.values v with
      | Raise e => Raise e
      | Return vs =>
          match Py.getitem0 (PyList vs) with
          | Raise e => Raise e
          | Return x => flatten rest (Py.setitem result k x)
          end
      end
  end.

(** The [try] block of [handler]. *)
Definition handler_try (event context : pyval) : action response :=
  body_raw <- pure (Py.get event "body" PyNone) ;;
  body <- pure (match body_raw with
                | PyStr s => json_loads s
                | _ => Return (Py.or_ body_raw (PyDict []))
                end) ;;
  image_b64 <- pure (Py.getitem body "image_base64") ;;
  img_bytes <- pure (base64.b64decode image_b64) ;;
  res <- invoke reko_search_faces_by_image
           [("CollectionId", PyStr COLLECTION_ID);
            ("Image", PyDict [("Bytes", PyBytes img_bytes)]);
            ("FaceMatchThreshold", PyFloat THRESHOLD);
            ("MaxFaces", PyInt 1)] ;;
  face_matches <- pure (Py.get res "FaceMatches" PyNone) ;;
  if negb (Py.truthy face_matches) then
    pure (_resp 404 (PyDict [("message", PyStr "No confident match")]))
  else
    matches <- pure (Py.getitem res "FaceMatches") ;;
    match_ <- pure (Py.getitem0 matches) ;;
    face <- pure (Py.getitem match_ "Face") ;;
    face_id <- pure (Py.getitem face "FaceId") ;;
    similarity <- pure (Py.getitem match_ "Similarity") ;;
    q <- invoke ddb_query
           [("TableName", PyStr TABLE_NAME);
            ("IndexName", PyStr "face_id-index");
            ("KeyConditionExpression", PyStr "face_id = :f");
            ("ExpressionAttributeValues",
             PyDict [(":f", PyDict [("S", face_id)])]);
            ("Limit", PyInt 1)] ;;
    items <- pure (Py.get q "Items" PyNone) ;;
    if negb (Py.truthy items) then
      pure (_resp 404 (PyDict [("message", PyStr "Face mapped but no patient record")]))
    else
      found <- pure (Py.getitem q "Items") ;;
      item <- pure (Py.getitem0 found) ;;
      entries <- pure (Py.items item) ;;
      result <- pure (flatten entries []) ;;
      let result := Py.setitem result "similarity" similarity in
      pure (_resp 200 (PyDict result)).

Definition handler (event context : pyval) : action response :=
  try_except (handler_try event context)
    (fun e => pure (_resp 500 (PyDict [("error", PyStr (str_exn e))]))).

End Handler.
End identify_patient.

(** ** Vocabulary of the properties *)

(** A response with the JSON header and the JSON text of [obj] as body. *)
Definition json_response (code : Z) (obj : pyval) : response :=
  {| statusCode := code;
     headers := [("Content-Type", "application/json")];
     body := JsonText obj |}.

(** The body both handlers read from the event: the decoded text when the
    event carries a str, the value itself (or {} when it is missing or
    falsy) otherwise. *)
Definition request_body (json_loads : string -> outcome pyval) (event : pyval)
  : outcome pyval :=
  match Py.get event "body" PyNone with
  | Raise e => Raise e
  | Return (PyStr s) => json_loads s
  | Return body_raw => Return (Py.or_ body_raw (PyDict []))
  end.

(** A collaborator's answer that lists nothing under [field]: a mapping in
    which the field is missing or falsy (an empty list). *)
Definition lists_nothing (field : string) (answer : pyval) : Prop :=
  exists v, Py.get answer field PyNone = Return v /\ Py.truthy v = false.

(** [answer[field][0]]: the first face record, match or item of an answer. *)
Definition first_of (field : string) (answer : pyval) : outcome pyval :=
  match Py.getitem answer field with
  | Return l => Py.getitem0 l
  | Raise e => Raise e
  end.

(** [record['Face']['FaceId']] *)
Definition face_id_of (record : pyval) : outcome pyval :=
  match Py.getitem record "Face" with
  | Return face => Py.getitem face "FaceId"
  | Raise e => Raise e
  end.

(** The invocation made a call to [f]. *)
Definition calls (f : api) (tr : list entry) : Prop :=
  exists c r, In (Called c r) tr /\ call_api c = f.

(** [f] was called in the invocation and returned [answer]. *)
Definition returned (f : api) (answer : pyval) (tr : list entry) : Prop :=
  exists c, In (Called c (Return answer)) tr /\ call_api c = f.

(** Base64 text as RFC 4648 has it: groups of four characters of the
    alphabet, the last group ending in at most two "=". *)
Definition well_formed_base64 (s : string) : bool :=
  let cs := list_ascii_of_string s in
  let data :=
    match rev cs with
    | "="%char :: "="%char :: d => d
    | "="%char :: d => d
    | d => d
    end in
  (N.of_nat (List.length cs) mod 4 =? 0)%N
  && forallb (fun c => match binascii.table_a2b_base64 c with
                       | Some _ => true
                       | None => false
                       end) data.

(** ** Outcomes of a handler *)

(** The response of the [except] clause for the exception [e]. *)
Definition failure (e : exn) : response :=
  json_response 500 (PyDict [("error", PyStr (str_exn e))]).

(** The documented outcomes of a registration that did not fail. *)
Definition registered (r : response) : Prop :=
  exists patient_id face_id,
    r = json_response 201 (PyDict [("patient_id", patient_id); ("face_id", face_id)]).

Definition registration_rejected (r : response) : Prop :=
  r = json_response 422 (PyDict [("message", PyStr "No face detected or poor quality.")]).

(** The documented outcomes of an identification that did not fail. *)
Definition identified (r : response) : Prop :=
  exists result, r = json_response 200 (PyDict result).

Definition identification_not_found (r : response) : Prop :=
  r = json_response 404 (PyDict [("message", PyStr "No confident match")])
  \/ r = json_response 404 (PyDict [("message", PyStr "Face mapped but no patient record")]).

(** ** The record a registration writes *)

(** The loop [for k, v in attrs.items(): if isinstance(v, str): item[k] =
    {'S': v}] as it stands in [register_patient.handler_try]. *)
Definition merge (entries : list (string * pyval)) (item : dict) : dict :=
  fold_left
    (fun item kv =>
       let '(k, v) := kv in
       if Py.isinstance_str v then Py.setitem item k (PyDict [("S", v)])
       else item)
    entries item.

(** The core fields of a record, before the attributes are merged in. *)
Definition core_item (patient_id face_id : pyval) (created updated : Z) : dict :=
  [("patient_id", PyDict [("S", patient_id)]);
   ("face_id", PyDict [("S", face_id)]);
   ("created_at", PyDict [("N", PyStr (Py.str_int created))]);
   ("updated_at", PyDict [("N", PyStr (Py.str_int updated))])].

(** What the [except] clause makes of a result. *)
Definition caught (o : outcome response) : outcome response :=
  match o with
  | Return r => Return r
  | Raise e => Return (failure e)
  end.

Definition core_fields : list string :=
  ["patient_id"; "face_id"; "created_at"; "updated_at"].

(** ** The record an identification reads *)

(** The plain value of a typed attribute value such as {'S': x}: the first
    value it holds. *)
Definition typed_value (v : pyval) : option pyval :=
  match v with
  | PyDict ((_, x) :: _) => Some x
  | _ => None
  end.

(** ** Sample worlds and events *)

Module Sample.

(** The events below carry their body already decoded, so the decoder is
    never consulted; this one takes no text for JSON. *)
Definition json_loads (s : string) : outcome pyval :=
  Raise (Exception "JSONDecodeError" "Expecting value: line 1 column 1 (char 0)").

Definition COLLECTION_ID : string := "patients-faces".
Definition TABLE_NAME : string := "patients".
Definition THRESHOLD : float := 95%float.

(** A world whose recognizer answers [idx] to [index_faces] and [res] to
    [search_faces_by_image], whose store accepts every write and answers
    [q] to [query], and whose clock reads [clock]. *)
Definition answering (idx res q : pyval) (clock : list entry -> Z) : world :=
  {| respond := fun _ c =>
       match call_api c with
       | reko_index_faces => Return idx
       | reko_search_faces_by_image => Return res
       | ddb_put_item => Return (PyDict [])
       | ddb_query => Return q
       end;
     time_ms := clock |}.

(** The same recognizer and clock, and a store that refuses every write. *)
Definition store_down (idx : pyval) (clock : list entry -> Z) : world :=
  {| respond := fun _ c =>
       match call_api c with
       | reko_index_faces => Return idx
       | ddb_put_item =>
           Raise (Exception "ProvisionedThroughputExceededException"
                    "An error occurred (ProvisionedThroughputExceededException) when calling the PutItem operation")
       | _ => Return PyNone
       end;
     time_ms := clock |}.

Definition frozen (h : list entry) : Z := 1700000000000.
Definition ticking (h : list entry) : Z := 1700000000000 + Z.of_nat (List.length h).

Definition one_face : pyval :=
  PyDict [("FaceRecords",
           PyList [PyDict [("Face", PyDict [("FaceId", PyStr "face-1");
                                            ("Confidence", PyFloat 99.5)])]])].
Definition no_face : pyval := PyDict [("FaceRecords", PyList [])].

Definition one_match : pyval :=
  PyDict [("FaceMatches",
           PyList [PyDict [("Face", PyDict [("FaceId", PyStr "face-1")]);
                           ("Similarity", PyFloat 97.5)]])].
Definition no_match : pyval := PyDict [("FaceMatches", PyList [])].

Definition one_item (item : dict) : pyval := PyDict [("Items", PyList [PyDict item])].
Definition no_item : pyval := PyDict [("Items", PyList [])].

(** A registration request for patient P-1 with the image bytes "ABC". *)
Definition register_body (attributes : pyval) : pyval :=
  PyDict [("image_base64", PyStr "QUJD");
          ("patient_id", PyStr "P-1");
          ("attributes", attributes)].

Definition register_event (attributes : pyval) : pyval :=
  PyDict [("body", register_body attributes)].

Definition identify_event (image_b64 : string) : pyval :=
  PyDict [("body", PyDict [("image_base64", PyStr image_b64)])].

(** The write the registration of P-1 makes. *)
Definition put_item_call (item : dict) : call :=
  Invoke ddb_put_item [("TableName", PyStr TABLE_NAME); ("Item", PyDict item)].

Definition register (w : world) (event : pyval) : outcome response * list entry :=
  invocation w (register_patient.handler json_loads COLLECTION_ID TABLE_NAME event PyNone).

Definition identify (w : world) (event : pyval) : outcome response * list entry :=
  invocation w (identify_patient.handler json_loads COLLECTION_ID TABLE_NAME THRESHOLD
                  event PyNone).

End Sample.

(** ** The four claims that fail as they are stated *)

(** C1 as the claim has it: nothing asked of the attributes or of the
    store. *)
Definition registration_always_created : Prop :=
  forall jl cid tn w event ctx out tr req image_b64 patient_id idx record face_id,
    invocation w (register_patient.handler jl cid tn event ctx) = (out, tr) ->
    request_body jl event = Return req ->
    Py.getitem req "image_base64" = Return image_b64 ->
    Py.getitem req "patient_id" = Return patient_id ->
    (exists img, base64.b64decode image_b64 = Return img) ->
    returned reko_index_faces idx tr ->
    first_of "FaceRecords" idx = Return record ->
    face_id_of record = Return face_id ->
    json.serializable patient_id = true ->
    json.serializable face_id = true ->
    out = Return (json_response 201
                    (PyDict [("patient_id", patient_id); ("face_id", face_id)])).

(** C2 as the claim has it: every field of the stored record, whatever its
    name. *)
Definition every_stored_field_returned : Prop :=
  forall jl cid tn th w event ctx out tr res match_ similarity q item,
    invocation w (identify_patient.handler jl cid tn th event ctx) = (out, tr) ->
    returned reko_search_faces_by_image res tr ->
    first_of "FaceMatches" res = Return match_ ->
    Py.getitem match_ "Similarity" = Return similarity ->
    returned ddb_query q tr ->
    first_of "Items" q = Return (PyDict item) ->
    NoDup (map fst item) ->
    Forall (fun kv => typed_value (snd kv) <> None) item ->
    json.serializable (PyDict item) = true ->
    json.serializable similarity = true ->
    exists result,
      out = Return (json_response 200 (PyDict result))
      /\ (forall k v, Py.lookup k item = Some v ->
                      exists x, typed_value v = Some x /\ Py.lookup k result = Some x)
      /\ Py.lookup "similarity" result = Some similarity.

(** C7 as the claim has it: every text that is not well-formed base64. *)
Definition malformed_base64_always_500 : Prop :=
  forall jl cid tn th w event ctx req s,
    request_body jl event = Return req ->
    Py.getitem req "image_base64" = Return (PyStr s) ->
    well_formed_base64 s = false ->
    (exists msg,
        msg <> ""
        /\ fst (invocation w (register_patient.handler jl cid tn event ctx))
           = Return (json_response 500 (PyDict [("error", PyStr msg)])))
    /\ (exists msg,
           msg <> ""
           /\ fst (invocation w (identify_patient.handler jl cid tn th event ctx))
              = Return (json_response 500 (PyDict [("error", PyStr msg)]))).

(** C9 as the claim has it: whatever the attributes, whatever the clock. *)
Definition timestamps_always_equal : Prop :=
  forall jl cid tn w event ctx out tr c r,
    invocation w (register_patient.handler jl cid tn event ctx) = (out, tr) ->
    In (Called c r) tr ->
    call_api c = ddb_put_item ->
    exists item t,
      Py.lookup "Item" (kwargs c) = Some (PyDict item)
      /\ In (Clock t) tr
      /\ Py.lookup "created_at" item = Some (PyDict [("N", PyStr (Py.str_int t))])
      /\ Py.lookup "updated_at" item = Some (PyDict [("N", PyStr (Py.str_int t))]).

(** ** The calls the handlers make *)

(** [reko.index_faces(...)] of line 30 of register_patient.py. *)
Definition index_faces_call (collection : string) (img_bytes : list byte)
                            (patient_id : pyval) : call :=
  Invoke reko_index_faces
    [("CollectionId", PyStr collection);
     ("Image", PyDict [("Bytes", PyBytes img_bytes)]);
     ("ExternalImageId", patient_id);
     ("DetectionAttributes", PyList [PyStr "DEFAULT"]);
     ("MaxFaces", PyInt 1);
     ("QualityFilter", PyStr "AUTO")].

(** [ddb.put_item(...)] of line 54 of register_patient.py. *)
Definition put_item_call (table : string) (item : dict) : call :=
  Invoke ddb_put_item [("TableName", PyStr table); ("Item", PyDict item)].

(** [reko.search_faces_by_image(...)] of line 24 of identify_patient.py. *)
Definition search_faces_call (collection : string) (threshold : float)
                             (img_bytes : list byte) : call :=
  Invoke reko_search_faces_by_image
    [("CollectionId", PyStr collection);
     ("Image", PyDict [("Bytes", PyBytes img_bytes)]);
     ("FaceMatchThreshold", PyFloat threshold);
     ("MaxFaces", PyInt 1)].

(** [ddb.query(...)] of line 38 of identify_patient.py. *)
Definition query_call (table : string) (face_id : pyval) : call :=
  Invoke ddb_query
    [("TableName", PyStr table);
     ("IndexName", PyStr "face_id-index");
     ("KeyConditionExpression", PyStr "face_id = :f");
     ("ExpressionAttributeValues", PyDict [(":f", PyDict [("S", face_id)])]);
     ("Limit", PyInt 1)].

(** A field as the registration writes it: {'S': v} or {'N': text}. *)
Definition written_field (v : pyval) : Prop :=
  (exists x, v = PyDict [("S", x)]) \/ (exists t, v = PyDict [("N", PyStr t)]).

(** The characters [b64decode] looks at: the alphabet and the pad. *)
Definition base64_character (c : ascii) : bool :=
  Ascii.eqb c "="%char
  || match binascii.table_a2b_base64 c with Some _ => true | None => false end.

(** ASCII text, which is what [b64decode] takes of a str. *)
Definition ascii_text (s : string) : bool :=
  forallb (fun c => (N_of_ascii c <? 128)%N) (list_ascii_of_string s).

(** [s] without the characters [b64decode] does not look at. *)
Definition base64_characters_of (s : string) : string :=
  string_of_list_ascii (filter base64_character (list_ascii_of_string s)).

(** More worlds: a recognizer that is down, and a store that answers
    [index_faces] and [search_faces_by_image] as given and fails every
    [query]. *)
Module Outage.

Definition recognizer_down : world :=
  {| respond := fun _ c =>
       match call_api c with
       | reko_index_faces | reko_search_faces_by_image =>
           Raise (Exception "ThrottlingException" "Rate exceeded")
       | _ => Return (PyDict [])
       end;
     time_ms := Sample.frozen |}.

Definition query_down (res : pyval) : world :=
  {| respond := fun _ c =>
       match call_api c with
       | reko_search_faces_by_image => Return res
       | ddb_query =>
           Raise (Exception "ResourceNotFoundException"
                    "Requested resource not found")
       | _ => Return (PyDict [])
       end;
     time_ms := Sample.frozen |}.

End Outage.

(** * Part II: proofs *)

(** ** Dicts *)

Lemma lookup_cons key k v (rest : dict) :
  Py.lookup key ((k, v) :: rest)
  = if String.eqb k key then Some v else Py.lookup key rest.
Proof. reflexivity. Qed.

Lemma lookup_setitem_same d key v :
  Py.lookup key (Py.setitem d key v) = Some v.
Proof.
  induction d as [|[k x] rest IH]; cbn.
  - now rewrite String.eqb_refl.
  - destruct (String.eqb k key) eqn:E; cbn; rewrite E; auto.
Qed.

Lemma lookup_setitem_other d key key' v :
  key <> key' -> Py.lookup key (Py.setitem d key' v) = Py.lookup key d.
Proof.
  intros Hne. induction d as [|[k x] rest IH]; cbn.
  - destruct (String.eqb_spec key' key); congruence.
  - destruct (String.eqb_spec k key'); cbn.
    + subst k. destruct (String.eqb_spec key' key); congruence.
    + now rewrite IH.
Qed.

Lemma in_lookup key (d : dict) v :
  NoDup (map fst d) -> In (key, v) d -> Py.lookup key d = Some v.
Proof.
  induction d as [|[k x] rest IH]; cbn; [contradiction|].
  intros Hnd [H|H]; inversion Hnd; subst.
  - inversion H; subst. now rewrite String.eqb_refl.
  - destruct (String.eqb_spec k key); auto.
    subst k. exfalso. match goal with H : ~ In _ _ |- _ => apply H end.
    change key with (fst (key, v)). now apply in_map.
Qed.

Lemma lookup_absent key (d : dict) :
  ~ In key (map fst d) -> Py.lookup key d = None.
Proof.
  induction d as [|[k x] rest IH]; cbn; auto.
  intros H. destruct (String.eqb_spec k key); [tauto|]. apply IH. tauto.
Qed.

Lemma items_dict o d : Py.items o = Return d -> o = PyDict d.
Proof. unfold Py.items. destruct o; intros H; inversion H; auto. Qed.

(** ** The attribute merge *)

Lemma merge_untouched entries : forall item key,
  (forall s, ~ In (key, PyStr s) entries) ->
  Py.lookup key (merge entries item) = Py.lookup key item.
Proof.
  induction entries as [|[k v] rest IH]; intros item key Hno; cbn; auto.
  rewrite IH by (intros s Hs; apply (Hno s); now right).
  destruct v; cbn; auto.
  apply lookup_setitem_other. intros ->. apply (Hno s). now left.
Qed.

Lemma merge_string entries : forall item key s,
  NoDup (map fst entries) ->
  Py.lookup key entries = Some (PyStr s) ->
  Py.lookup key (merge entries item) = Some (PyDict [("S", PyStr s)]).
Proof.
  induction entries as [|[k v] rest IH]; intros item key s Hnd; cbn; [discriminate|].
  inversion Hnd; subst.
  destruct (String.eqb_spec k key).
  - intros H; inversion H; subst. cbn.
    rewrite merge_untouched; [apply lookup_setitem_same|].
    intros s' Hs'. match goal with H : ~ In _ _ |- _ => apply H end.
    change key with (fst (key, PyStr s')). now apply in_map.
  - intros H. now apply IH.
Qed.

Lemma merge_origin entries : forall item key x,
  Py.lookup key (merge entries item) = Some x ->
  Py.lookup key item = Some x
  \/ exists s, In (key, PyStr s) entries /\ x = PyDict [("S", PyStr s)].
Proof.
  induction entries as [|[k v] rest IH]; intros item key x; cbn; auto.
  intros H. apply IH in H. destruct H as [H|(s & Hin & Hx)].
  - destruct v; cbn in H; auto.
    destruct (String.eqb_spec key k).
    + subst k. rewrite lookup_setitem_same in H. inversion H; subst.
      right. exists s. split; auto.
    + rewrite lookup_setitem_other in H by assumption. now left.
  - right. exists s. split; auto.
Qed.

Lemma core_item_other key patient_id face_id created updated :
  ~ In key core_fields ->
  Py.lookup key (core_item patient_id face_id created updated) = None.
Proof.
  intros Hno. unfold core_item.
  repeat (rewrite lookup_cons;
          match goal with
          | |- context [String.eqb ?k key] =>
              destruct (String.eqb_spec k key) as [<-|_];
              [exfalso; apply Hno; unfold core_fields, In; intuition|]
          end).
  reflexivity.
Qed.

(** ** The flattening *)

Lemma flatten_step k v rest acc result :
  identify_patient.flatten ((k, v) :: rest) acc = Return result ->
  exists x, typed_value v = Some x
            /\ identify_patient.flatten rest (Py.setitem acc k x) = Return result.
Proof.
  unfold identify_patient.flatten at 1; fold identify_patient.flatten.
  unfold Py.values, Py.getitem0.
  destruct v as [| | | | | | |[|[t x] d]]; try discriminate.
  cbn. intros H. exists x. auto.
Qed.

Lemma flatten_lookup entries : forall acc result,
  identify_patient.flatten entries acc = Return result ->
  NoDup (map fst entries) ->
  (forall k v, Py.lookup k entries = Some v ->
               exists x, typed_value v = Some x /\ Py.lookup k result = Some x)
  /\ (forall k, Py.lookup k entries = None -> Py.lookup k result = Py.lookup k acc).
Proof.
  induction entries as [|[k0 v0] rest IH]; intros acc result H Hnd.
  - cbn in H. inversion H; subst. split; [discriminate|auto].
  - apply flatten_step in H. destruct H as (x & Hx & H).
    inversion Hnd; subst.
    destruct (IH _ _ H) as (IH1 & IH2); auto.
    split; intros k; rewrite lookup_cons; destruct (String.eqb_spec k0 k).
    + intros v Hv. inversion Hv; subst. exists x. split; auto.
      rewrite IH2 by (now apply lookup_absent). apply lookup_setitem_same.
    + apply IH1.
    + discriminate.
    + intros Hk. rewrite IH2 by assumption. apply lookup_setitem_other. congruence.
Qed.

Lemma flatten_total entries : forall acc,
  Forall (fun kv => typed_value (snd kv) <> None) entries ->
  exists result, identify_patient.flatten entries acc = Return result.
Proof.
  induction entries as [|[k v] rest IH]; intros acc Hall.
  - exists acc. reflexivity.
  - inversion Hall; subst.
    destruct v as [| | | | | | |[|[t x] d]]; cbn in *; try congruence.
    unfold identify_patient.flatten; fold identify_patient.flatten. cbn.
    apply IH. assumption.
Qed.

Lemma setitem_serializable (d : dict) key v :
  json.serializable (PyDict d) = true ->
  json.serializable v = true ->
  json.serializable (PyDict (Py.setitem d key v)) = true.
Proof.
  cbn. intros Hd Hv. induction d as [|[k x] rest IH]; cbn in *.
  - now rewrite Hv.
  - apply andb_true_iff in Hd. destruct Hd as (Hx & Hrest).
    destruct (String.eqb k key); cbn.
    + now rewrite Hv, Hrest.
    + now rewrite Hx, IH.
Qed.

Lemma flatten_serializable entries : forall acc result,
  identify_patient.flatten entries acc = Return result ->
  json.serializable (PyDict entries) = true ->
  json.serializable (PyDict acc) = true ->
  json.serializable (PyDict result) = true.
Proof.
  induction entries as [|[k v] rest IH]; intros acc result H He Ha.
  - cbn in H. inversion H; subst. assumption.
  - apply flatten_step in H. destruct H as (x & Hx & H).
    cbn in He. apply andb_true_iff in He. destruct He as (Hv & Hrest).
    apply (IH _ _ H); auto.
    apply setitem_serializable; auto.
    destruct v as [| | | | | | |[|[t y] d]]; cbn in Hx; try discriminate.
    inversion Hx; subst. cbn in Hv.
    apply andb_true_iff in Hv. tauto.
Qed.

(** ** Error texts *)

Example b64decode_ABC :
  base64.b64decode (PyStr "QUJD") = Return ["A"%byte; "B"%byte; "C"%byte].
Proof. vm_compute. reflexivity. Qed.

(** The texts of the interpreter's own errors are never empty. *)
Lemma get_error_text o key default e :
  Py.get o key default = Raise e -> str_exn e <> "".
Proof.
  unfold Py.get. destruct o; intros H; inversion H; subst; cbn; discriminate.
Qed.

Lemma getitem_error_text o key e :
  Py.getitem o key = Raise e -> str_exn e <> "".
Proof.
  unfold Py.getitem.
  destruct o; intros H; try (inversion H; subst; cbn; discriminate).
  destruct (Py.lookup key d); inversion H; subst; cbn; discriminate.
Qed.

Lemma a2b_loop_error_text data : forall quad_pos leftchar pads out e,
  binascii.a2b_loop data quad_pos leftchar pads out = Raise e -> str_exn e <> "".
Proof.
  induction data as [|c rest IH]; intros quad_pos leftchar pads out e; cbn.
  - destruct (quad_pos =? 0)%N; [discriminate|].
    destruct (quad_pos =? 1)%N; intros H; inversion H; subst; cbn; discriminate.
  - destruct (Ascii.eqb c "=").
    + destruct (2 <=? quad_pos)%N; [|apply IH].
      destruct (4 <=? quad_pos + (pads + 1))%N; [discriminate|apply IH].
    + destruct (binascii.table_a2b_base64 c); [|apply IH].
      destruct (quad_pos =? 0)%N; [apply IH|].
      destruct (quad_pos =? 1)%N; [apply IH|].
      destruct (quad_pos =? 2)%N; apply IH.
Qed.

(** Every way [b64decode] fails comes with a message. *)
Lemma b64decode_error_text s e :
  base64.b64decode s = Raise e -> str_exn e <> "".
Proof.
  unfold base64.b64decode, base64._bytes_from_decode_data.
  destruct s; try (intros H; inversion H; subst; cbn; discriminate).
  - destruct (forallb _ _).
    + apply a2b_loop_error_text.
    + intros H; inversion H; subst; cbn; discriminate.
  - apply a2b_loop_error_text.
Qed.

(** ** Running program trees *)

Lemma run_bind {A B} (w : world) (m : action A) (f : A -> action B) h :
  run w h (bind m f) =
  match run w h m with
  | (Return a, h') => run w h' (f a)
  | (Raise e, h') => (Raise e, h')
  end.
Proof.
  revert h. induction m as [[a|e]|c k IH|k IH]; intros h; simpl; auto.
Qed.

Lemma run_try_except {A} (w : world) (m : action A) (hd : exn -> action A) h :
  run w h (try_except m hd) =
  match run w h m with
  | (Return a, h') => (Return a, h')
  | (Raise e, h') => run w h' (hd e)
  end.
Proof.
  revert h. induction m as [[a|e]|c k IH|k IH]; intros h; simpl; auto.
Qed.

Lemma register_handler_run jl cid tn w event ctx :
  invocation w (register_patient.handler jl cid tn event ctx) =
  match invocation w (register_patient.handler_try jl cid tn event ctx) with
  | (Return r, tr) => (Return r, tr)
  | (Raise e, tr) =>
      (Return (json_response 500 (PyDict [("error", PyStr (str_exn e))])), tr)
  end.
Proof.
  unfold invocation, register_patient.handler. rewrite run_try_except.
  destruct (run w [] _) as [[r|e] tr]; reflexivity.
Qed.

Lemma identify_handler_run jl cid tn th w event ctx :
  invocation w (identify_patient.handler jl cid tn th event ctx) =
  match invocation w (identify_patient.handler_try jl cid tn th event ctx) with
  | (Return r, tr) => (Return r, tr)
  | (Raise e, tr) =>
      (Return (json_response 500 (PyDict [("error", PyStr (str_exn e))])), tr)
  end.
Proof.
  unfold invocation, identify_patient.handler. rewrite run_try_except.
  destruct (run w [] _) as [[r|e] tr]; reflexivity.
Qed.

Lemma request_body_steps jl event body_raw body :
  Py.get event "body" PyNone = Return body_raw ->
  match body_raw with
  | PyStr s => jl s
  | _ => Return (Py.or_ body_raw (PyDict []))
  end = Return body ->
  request_body jl event = Return body.
Proof.
  intros E E0. unfold request_body. rewrite E. destruct body_raw; auto.
Qed.

Lemma first_of_listed field answer x :
  first_of field answer = Return x ->
  exists l, Py.get answer field PyNone = Return l /\ Py.truthy l = true.
Proof.
  unfold first_of, Py.getitem, Py.get, Py.getitem0.
  destruct answer; try discriminate.
  destruct (Py.lookup field d) as [l|]; [|discriminate].
  intros H. exists l. split; auto.
  destruct l as [| | | | [|] | [|] | [|] |]; try discriminate; reflexivity.
Qed.

(** Symbolic execution of a handler in a hypothesis: split on the next step
    that may raise, or on the next test. *)
Ltac exec_step H :=
  match type of H with
  | context [run _ _ (match ?x with Return _ => _ | Raise _ => _ end)] =>
      let E := fresh "E" in destruct x eqn:E; cbn in H
  | context [run _ _ (if ?b then _ else _)] =>
      let E := fresh "E" in destruct b eqn:E; cbn in H
  | context [match ?x with Return _ => _ | Raise _ => _ end] =>
      let E := fresh "E" in destruct x eqn:E; cbn in H
  | context [if ?b then _ else _] =>
      let E := fresh "E" in destruct b eqn:E; cbn in H
  end.

Ltac exec H := cbn in H; repeat exec_step H.

(** Case analysis on the membership of an entry in an explicit trace. *)
Ltac in_trace H :=
  cbn in H;
  repeat match type of H with
         | _ \/ _ => destruct H as [H|H]
         | False => contradiction
         | Called _ _ = Called _ _ => inversion H; subst; clear H
         | Clock _ = Called _ _ => discriminate H
         | Called _ _ = Clock _ => discriminate H
         | Clock _ = Clock _ => inversion H; subst; clear H
         end.

(** Identify the results of one step read twice, and push known results
    into the matches that wait for them. *)
Ltac unify_steps :=
  repeat match goal with
         | E : ?x = Return _, E' : ?x = Raise _ |- _ =>
             rewrite E in E'; discriminate E'
         | E : ?x = Return ?a, E' : ?x = Return ?b |- _ =>
             rewrite E in E'; inversion E'; subst; try clear E'
         | E : ?x = _,
           H : match ?x with Return _ => _ | Raise _ => _ end = _ |- _ =>
             rewrite E in H
         end.

Ltac booleans :=
  repeat match goal with
         | H : negb _ = true |- _ => apply negb_true_iff in H
         | H : negb _ = false |- _ => apply negb_false_iff in H
         end.

(** Run a handler in [H : invocation w (handler ...) = (out, tr)] down to
    its leaves. *)
Ltac run_register H :=
  rewrite register_handler_run in H;
  unfold invocation, register_patient.handler_try,
    register_patient._resp, json.dumps in H;
  exec H; inversion H; subst; clear H; booleans.

Ltac run_identify H :=
  rewrite identify_handler_run in H;
  unfold invocation, identify_patient.handler_try,
    identify_patient._resp, json.dumps in H;
  exec H; inversion H; subst; clear H; booleans.

Arguments base64.b64decode : simpl never.
Arguments Py.get : simpl never.
Arguments Py.getitem : simpl never.
Arguments Py.getitem0 : simpl never.
Arguments Py.items : simpl never.
Arguments Py.truthy : simpl never.
Arguments Py.str_int : simpl never.
Arguments identify_patient.flatten : simpl never.

(** ** Rejections *)

(** C3. Registration: when the recognizer's [index_faces] returns and lists
    no face record, the response is 422 with the message "No face detected
    or poor quality." whatever the event holds (its attributes included),
    and the invocation makes no [put_item] call. *)
Theorem register_no_face_is_422 jl cid tn w event ctx out tr idx :
  invocation w (register_patient.handler jl cid tn event ctx) = (out, tr) ->
  returned reko_index_faces idx tr ->
  lists_nothing "FaceRecords" idx ->
  out = Return (json_response 422
                  (PyDict [("message", PyStr "No face detected or poor quality.")]))
  /\ ~ calls ddb_put_item tr.
Proof.
  intros H (c & Hin & Hc) (v & Hv & Hf).
  run_register H; in_trace Hin; try discriminate Hc; try congruence.
  split; [reflexivity|].
  intros (c1 & r & Hin & Hc1). in_trace Hin. discriminate Hc1.
Qed.

(** C3 at work: no face in the image, attributes or not. *)
Lemma register_no_face_is_422_witness :
  let w := Sample.answering Sample.no_face PyNone PyNone Sample.frozen in
  let event := Sample.register_event (PyDict [("name", PyStr "A"); ("age", PyInt 30)]) in
  fst (Sample.register w event)
  = Return (json_response 422
              (PyDict [("message", PyStr "No face detected or poor quality.")]))
  /\ ~ calls ddb_put_item (snd (Sample.register w event)).
Proof.
  cbv zeta.
  apply (register_no_face_is_422 _ _ _ _ _ _ _ _ Sample.no_face
           (surjective_pairing _)).
  - eexists. split; [left; reflexivity | reflexivity].
  - eexists. split; reflexivity.
Defined.

(** C4. Identification: when the recognizer's [search_faces_by_image]
    returns and lists no match, the response is 404 with the message
    "No confident match", and the invocation makes no [query] call. *)
Theorem identify_no_match_is_404 jl cid tn th w event ctx out tr res :
  invocation w (identify_patient.handler jl cid tn th event ctx) = (out, tr) ->
  returned reko_search_faces_by_image res tr ->
  lists_nothing "FaceMatches" res ->
  out = Return (json_response 404 (PyDict [("message", PyStr "No confident match")]))
  /\ ~ calls ddb_query tr.
Proof.
  intros H (c & Hin & Hc) (v & Hv & Hf).
  run_identify H; in_trace Hin; try discriminate Hc; try congruence.
  split; [reflexivity|].
  intros (c1 & r & Hin & Hc1). in_trace Hin. discriminate Hc1.
Qed.

(** C4 at work: the recognizer knows no such face. *)
Lemma identify_no_match_is_404_witness :
  let w := Sample.answering PyNone Sample.no_match PyNone Sample.frozen in
  let event := Sample.identify_event "QUJD" in
  fst (Sample.identify w event)
  = Return (json_response 404 (PyDict [("message", PyStr "No confident match")]))
  /\ ~ calls ddb_query (snd (Sample.identify w event)).
Proof.
  cbv zeta.
  apply (identify_no_match_is_404 _ _ _ _ _ _ _ _ _ Sample.no_match
           (surjective_pairing _)).
  - eexists. split; [left; reflexivity | reflexivity].
  - eexists. split; reflexivity.
Defined.

(** C5. Identification: when the store's [query] returns and lists no item,
    the response is 404 with the message "Face mapped but no patient
    record".  The query is only made once the recognizer has returned a
    match, and it asks the index [face_id-index] for that match's face id. *)
Theorem identify_no_record_is_404 jl cid tn th w event ctx out tr q :
  invocation w (identify_patient.handler jl cid tn th event ctx) = (out, tr) ->
  returned ddb_query q tr ->
  lists_nothing "Items" q ->
  out = Return (json_response 404
                  (PyDict [("message", PyStr "Face mapped but no patient record")]))
  /\ exists res match_ face_id,
       returned reko_search_faces_by_image res tr
       /\ first_of "FaceMatches" res = Return match_
       /\ face_id_of match_ = Return face_id
       /\ forall c r, In (Called c r) tr -> call_api c = ddb_query ->
            Py.lookup "IndexName" (kwargs c) = Some (PyStr "face_id-index")
            /\ Py.lookup "ExpressionAttributeValues" (kwargs c)
               = Some (PyDict [(":f", PyDict [("S", face_id)])]).
Proof.
  intros H (c & Hin & Hc) (v & Hv & Hf).
  run_identify H; in_trace Hin; try discriminate Hc; try congruence.
  split; [reflexivity|].
  match goal with
  | E : Py.getitem0 _ = Return ?m, F : Py.getitem _ "FaceId" = Return ?f |- _ =>
      exists a3, m, f
  end.
  unfold first_of, face_id_of. rewrite E6, E7, E8, E9.
  repeat split.
  - eexists; split; [left; reflexivity | reflexivity].
  - in_trace H; try discriminate H0; reflexivity.
  - in_trace H; try discriminate H0; reflexivity.
Qed.

(** C5 at work: a face the recognizer knows, and no record under it. *)
Lemma identify_no_record_is_404_witness :
  let w := Sample.answering PyNone Sample.one_match Sample.no_item Sample.frozen in
  let event := Sample.identify_event "QUJD" in
  fst (Sample.identify w event)
  = Return (json_response 404
              (PyDict [("message", PyStr "Face mapped but no patient record")])).
Proof.
  cbv zeta.
  apply (identify_no_record_is_404 _ _ _ _ _ _ _ _ _ Sample.no_item
           (surjective_pairing _)).
  - eexists. split; [right; left; reflexivity | reflexivity].
  - eexists. split; reflexivity.
Defined.

(** ** Failures *)

Lemma register_try_returns jl cid tn w event ctx r tr :
  invocation w (register_patient.handler_try jl cid tn event ctx) = (Return r, tr) ->
  registered r \/ registration_rejected r.
Proof.
  intros H. unfold invocation, register_patient.handler_try in H.
  exec H; inversion H; subst; clear H.
  - right. reflexivity.
  - left. unfold register_patient._resp, json.dumps in *.
    destruct (json.serializable _); inversion H1. eexists _, _. reflexivity.
Qed.

Lemma identify_try_returns jl cid tn th w event ctx r tr :
  invocation w (identify_patient.handler_try jl cid tn th event ctx) = (Return r, tr) ->
  identified r \/ identification_not_found r.
Proof.
  intros H. unfold invocation, identify_patient.handler_try in H.
  exec H; inversion H; subst; clear H.
  - right. left. reflexivity.
  - right. right. reflexivity.
  - left. unfold identify_patient._resp, json.dumps in *.
    destruct (json.serializable _); inversion H1. eexists. reflexivity.
Qed.

(** C8. Whatever the event and whatever the collaborators do (return
    anything, raise anything), each handler returns a response.  When its
    [try] block returned, that is the response, and it is one of the
    documented outcomes (201 or 422 for registration, 200 or 404 for
    identification); when the block raised [e], the response is 500 with the
    body { "error": str(e) }. *)
Theorem handlers_never_raise jl cid tn th w event ctx :
  (exists resp tr,
      invocation w (register_patient.handler jl cid tn event ctx) = (Return resp, tr)
      /\ match invocation w (register_patient.handler_try jl cid tn event ctx) with
         | (Return r, tr') => resp = r /\ tr = tr'
                              /\ (registered r \/ registration_rejected r)
         | (Raise e, tr') => resp = failure e /\ tr = tr'
         end)
  /\
  (exists resp tr,
      invocation w (identify_patient.handler jl cid tn th event ctx) = (Return resp, tr)
      /\ match invocation w (identify_patient.handler_try jl cid tn th event ctx) with
         | (Return r, tr') => resp = r /\ tr = tr'
                              /\ (identified r \/ identification_not_found r)
         | (Raise e, tr') => resp = failure e /\ tr = tr'
         end).
Proof.
  split.
  - rewrite register_handler_run.
    destruct (invocation w (register_patient.handler_try _ _ _ _ _)) as [[r|e] tr] eqn:E.
    + exists r, tr. repeat split. eapply register_try_returns; eauto.
    + exists (failure e), tr. repeat split.
  - rewrite identify_handler_run.
    destruct (invocation w (identify_patient.handler_try _ _ _ _ _ _)) as [[r|e] tr] eqn:E.
    + exists r, tr. repeat split. eapply identify_try_returns; eauto.
    + exists (failure e), tr. repeat split.
Qed.

(** What [b64decode] does raise on is answered 500: a request whose body is
    read and holds an [image_base64] for which the decoder raises gets, from
    either handler, status 500 with a body { "error": message } whose
    message is not empty, and no collaborator is called.  In the
    identification handler the message is the decoder's; in the registration
    handler it is the decoder's unless [patient_id] is missing, which is
    noticed first.  This says nothing of the texts the decoder lets through;
    C7 is about those. *)
Lemma rejected_base64_is_500 jl cid tn th w event ctx req image_b64 e :
  request_body jl event = Return req ->
  Py.getitem req "image_base64" = Return image_b64 ->
  base64.b64decode image_b64 = Raise e ->
  (exists msg,
      msg <> ""
      /\ invocation w (register_patient.handler jl cid tn event ctx)
         = (Return (json_response 500 (PyDict [("error", PyStr msg)])), []))
  /\ str_exn e <> ""
  /\ invocation w (identify_patient.handler jl cid tn th event ctx)
     = (Return (json_response 500 (PyDict [("error", PyStr (str_exn e))])), []).
Proof.
  intros Hbody Himg Hdec. unfold request_body in Hbody.
  assert (He : str_exn e <> "") by (eapply b64decode_error_text; eauto).
  split; [|split; [exact He|]].
  - destruct (invocation w (register_patient.handler jl cid tn event ctx))
      as [out tr] eqn:H.
    run_register H;
      try match goal with
          | E : Py.get event "body" PyNone = _ |- _ => rewrite E in Hbody
          end;
      try congruence.
    all: try (assert (a0 = req) by (destruct a; congruence); subst a0).
    all: try congruence.
    all: eexists; split; [|reflexivity];
      first [ eapply getitem_error_text; eassumption
            | eapply get_error_text; eassumption
            | eapply b64decode_error_text; eassumption ].
  - destruct (invocation w (identify_patient.handler jl cid tn th event ctx))
      as [out tr] eqn:H.
    run_identify H;
      try match goal with
          | E : Py.get event "body" PyNone = _ |- _ => rewrite E in Hbody
          end;
      try congruence.
    all: try (assert (a0 = req) by (destruct a; congruence); subst a0).
    all: try congruence.
Qed.

(** The image of the repository's own test of an invalid image is such a
    text, by its length alone: 17 data characters once the underscores are
    skipped, which is one more than a multiple of four. *)
Lemma rejected_base64_is_500_witness :
  let w := Sample.answering Sample.one_face Sample.one_match Sample.no_item Sample.frozen in
  let event := PyDict [("body", PyDict [("image_base64", PyStr "invalid_base64_data");
                                        ("patient_id", PyStr "P-1")])] in
  let e := binascii.Error "Invalid base64-encoded string: number of data characters (17) cannot be 1 more than a multiple of 4" in
  (exists msg,
      msg <> ""
      /\ Sample.register w event
         = (Return (json_response 500 (PyDict [("error", PyStr msg)])), []))
  /\ str_exn e <> ""
  /\ Sample.identify w event
     = (Return (json_response 500 (PyDict [("error", PyStr (str_exn e))])), []).
Proof.
  cbv zeta.
  exact (rejected_base64_is_500 Sample.json_loads Sample.COLLECTION_ID
           Sample.TABLE_NAME Sample.THRESHOLD
           (Sample.answering Sample.one_face Sample.one_match Sample.no_item Sample.frozen)
           (PyDict [("body", PyDict [("image_base64", PyStr "invalid_base64_data");
                                     ("patient_id", PyStr "P-1")])])
           PyNone
           (PyDict [("image_base64", PyStr "invalid_base64_data");
                    ("patient_id", PyStr "P-1")])
           (PyStr "invalid_base64_data")
           (binascii.Error "Invalid base64-encoded string: number of data characters (17) cannot be 1 more than a multiple of 4")
           eq_refl eq_refl eq_refl).
Defined.

(** The decoder skips what is not of the alphabet: "QUJD!" is no base64 text
    and decodes to "ABC". *)
Example b64decode_skips_foreign_characters :
  well_formed_base64 "QUJD!" = false
  /\ base64.b64decode (PyStr "QUJD!") = Return ["A"%byte; "B"%byte; "C"%byte].
Proof. split; vm_compute; reflexivity. Qed.

(** The statement of C7 does not hold of the code: an identification with
    the image "QUJD!", of a face the recognizer does not know, is answered
    404. *)
Lemma malformed_base64_can_be_404 : ~ malformed_base64_always_500.
Proof.
  intros claim.
  destruct (claim
           Sample.json_loads Sample.COLLECTION_ID Sample.TABLE_NAME Sample.THRESHOLD
           (Sample.answering Sample.no_face Sample.no_match Sample.no_item Sample.frozen)
           (Sample.identify_event "QUJD!") PyNone
           (PyDict [("image_base64", PyStr "QUJD!")]) "QUJD!"
           eq_refl eq_refl eq_refl)
    as (_ & msg & _ & H).
  vm_compute in H. discriminate H.
Qed.

(** C7, at the failing input.  The image "QUJD!" is no base64 text: five
    characters, one of them outside the alphabet.  [b64decode], called
    without [validate], skips the "!" and decodes the rest to "ABC", and the
    request goes on as a valid one: the identification of a face the
    recognizer does not know is answered 404, and the registration is
    answered 201 after the record is written.  Neither is the 500 that the
    claim, and the repository's own test of an invalid image, ask for. *)
Theorem malformed_base64_is_decoded :
  let event := PyDict [("body", PyDict [("image_base64", PyStr "QUJD!");
                                        ("patient_id", PyStr "P-1")])] in
  let strangers :=
    Sample.answering Sample.no_face Sample.no_match Sample.no_item Sample.frozen in
  let faces :=
    Sample.answering Sample.one_face Sample.one_match Sample.no_item Sample.frozen in
  well_formed_base64 "QUJD!" = false
  /\ base64.b64decode (PyStr "QUJD!") = Return ["A"%byte; "B"%byte; "C"%byte]
  /\ fst (Sample.identify strangers event)
     = Return (json_response 404 (PyDict [("message", PyStr "No confident match")]))
  /\ Sample.register faces event
     = (Return (json_response 201 (PyDict [("patient_id", PyStr "P-1");
                                           ("face_id", PyStr "face-1")])),
        [Called (index_faces_call Sample.COLLECTION_ID
                   ["A"%byte; "B"%byte; "C"%byte] (PyStr "P-1"))
                (Return Sample.one_face);
         Clock 1700000000000;
         Clock 1700000000000;
         Called (put_item_call Sample.TABLE_NAME
                   (core_item (PyStr "P-1") (PyStr "face-1")
                      1700000000000 1700000000000))
                (Return (PyDict []))]).
Proof.
  cbv zeta. repeat split; vm_compute; reflexivity.
Qed.

(** The test's image is turned away for its length only: without its last
    character it has 16 data characters, is still no base64 text, and
    registers a patient. *)
Example shortened_test_image_registers :
  well_formed_base64 "invalid_base64_dat" = false
  /\ fst (Sample.register
            (Sample.answering Sample.one_face Sample.one_match Sample.no_item
               Sample.frozen)
            (PyDict [("body", PyDict [("image_base64", PyStr "invalid_base64_dat");
                                      ("patient_id", PyStr "P-1")])]))
     = Return (json_response 201 (PyDict [("patient_id", PyStr "P-1");
                                          ("face_id", PyStr "face-1")])).
Proof. split; vm_compute; reflexivity. Qed.

(** ** Registrations that reach the store *)

(** An invocation that calls [put_item] has read its request, had a face
    record back from the recognizer and read the clock twice; the trace, the
    item and the response are then as follows. *)
Lemma register_put_item jl cid tn w event ctx out tr c r :
  invocation w (register_patient.handler jl cid tn event ctx) = (out, tr) ->
  In (Called c r) tr ->
  call_api c = ddb_put_item ->
  exists body image_b64 patient_id attrs img c0 idx record face_id created updated,
    request_body jl event = Return body
    /\ Py.getitem body "image_base64" = Return image_b64
    /\ Py.getitem body "patient_id" = Return patient_id
    /\ Py.get body "attributes" (PyDict []) = Return (PyDict attrs)
    /\ base64.b64decode image_b64 = Return img
    /\ call_api c0 = reko_index_faces
    /\ first_of "FaceRecords" idx = Return record
    /\ face_id_of record = Return face_id
    /\ tr = [Called c0 (Return idx); Clock created; Clock updated; Called c r]
    /\ kwargs c = [("TableName", PyStr tn);
                   ("Item", PyDict (merge attrs (core_item patient_id face_id created updated)))]
    /\ out = match r with
             | Return _ =>
                 caught (register_patient._resp 201
                           (PyDict [("patient_id", patient_id); ("face_id", face_id)]))
             | Raise e => Return (failure e)
             end.
Proof.
  intros H Hin Hc.
  run_register H; in_trace Hin; try discriminate Hc.
  all: match goal with E : Py.items _ = Return _ |- _ => apply items_dict in E; subst end.
  all: match goal with
       | E1 : Py.getitem ?b "image_base64" = Return ?i,
         E2 : Py.getitem ?b "patient_id" = Return ?p,
         E3 : Py.get ?b "attributes" _ = Return (PyDict ?ats),
         E4 : base64.b64decode ?i = Return ?img,
         E5 : Py.getitem ?idx "FaceRecords" = Return ?l,
         E6 : Py.getitem0 ?l = Return ?rec,
         E7 : Py.getitem ?rec "Face" = Return ?f,
         E8 : Py.getitem ?f "FaceId" = Return ?fid |- _ =>
           exists b, i, p, ats, img; eexists; exists idx, rec, fid; eexists _, _;
           repeat match goal with |- _ /\ _ => split end;
           [ eapply request_body_steps; eassumption
           | assumption | assumption | assumption | assumption
           |
           | unfold first_of; rewrite E5; exact E6
           | unfold face_id_of; rewrite E7; exact E8
           | reflexivity
           | reflexivity
           | ]
       end.
  all: try reflexivity.
  all: unfold caught, register_patient._resp, json.dumps; cbn.
  all: match goal with E : context [json.serializable] |- _ => rewrite E end.
  all: reflexivity.
Qed.

(** C6. In a registration that calls [put_item], the item holds a field
    {'S': s} for every string-valued entry (k, s) of the request's
    attributes; every field of the item outside the four core fields is such
    an entry; an entry whose value is not a str leaves no field behind, and
    the write is made all the same. *)
Theorem only_string_attributes_persisted
    jl cid tn w event ctx out tr c r req attrs :
  invocation w (register_patient.handler jl cid tn event ctx) = (out, tr) ->
  In (Called c r) tr ->
  call_api c = ddb_put_item ->
  request_body jl event = Return req ->
  Py.get req "attributes" (PyDict []) = Return (PyDict attrs) ->
  NoDup (map fst attrs) ->
  exists item,
    Py.lookup "Item" (kwargs c) = Some (PyDict item)
    /\ (forall k s, Py.lookup k attrs = Some (PyStr s) ->
                    Py.lookup k item = Some (PyDict [("S", PyStr s)]))
    /\ (forall k x, ~ In k core_fields -> Py.lookup k item = Some x ->
                    exists s, Py.lookup k attrs = Some (PyStr s)
                              /\ x = PyDict [("S", PyStr s)])
    /\ (forall k v, ~ In k core_fields -> Py.lookup k attrs = Some v ->
                    Py.isinstance_str v = false -> Py.lookup k item = None).
Proof.
  intros H Hin Hc Hreq Hattrs Hnd.
  destruct (register_put_item _ _ _ _ _ _ _ _ _ _ H Hin Hc)
    as (req' & image_b64 & patient_id & attrs' & img & c0 & idx & record & face_id
        & created & updated & B & I & P & A & D & C0 & F & FI & T & K & O).
  rewrite Hreq in B; inversion B; subst req'.
  rewrite Hattrs in A; inversion A; subst attrs'.
  assert (Horigin : forall k x, ~ In k core_fields ->
            Py.lookup k (merge attrs (core_item patient_id face_id created updated)) = Some x ->
            exists s, Py.lookup k attrs = Some (PyStr s) /\ x = PyDict [("S", PyStr s)]).
  { intros k x Hk Hx. apply merge_origin in Hx.
    destruct Hx as [Hx|(s & Hs & ->)].
    - rewrite core_item_other in Hx by assumption. discriminate.
    - exists s. split; auto. now apply in_lookup. }
  eexists. rewrite K. split; [reflexivity|]. split; [|split].
  - intros k s Hk. now apply merge_string.
  - exact Horigin.
  - intros k v Hk Hv Hstr.
    destruct (Py.lookup k (merge attrs _)) as [x|] eqn:Hx; auto.
    destruct (Horigin k x Hk Hx) as (s & Hs & _).
    rewrite Hs in Hv. inversion Hv; subst. discriminate.
Qed.

(** C6 at work: the spec's own example, a name and an age. *)
Lemma only_string_attributes_persisted_witness :
  let attrs := [("name", PyStr "A"); ("age", PyInt 30)] in
  let c := Sample.put_item_call
             [("patient_id", PyDict [("S", PyStr "P-1")]);
              ("face_id", PyDict [("S", PyStr "face-1")]);
              ("created_at", PyDict [("N", PyStr "1700000000000")]);
              ("updated_at", PyDict [("N", PyStr "1700000000000")]);
              ("name", PyDict [("S", PyStr "A")])] in
  exists item,
    Py.lookup "Item" (kwargs c) = Some (PyDict item)
    /\ (forall k s, Py.lookup k attrs = Some (PyStr s) ->
                    Py.lookup k item = Some (PyDict [("S", PyStr s)]))
    /\ (forall k x, ~ In k core_fields -> Py.lookup k item = Some x ->
                    exists s, Py.lookup k attrs = Some (PyStr s)
                              /\ x = PyDict [("S", PyStr s)])
    /\ (forall k v, ~ In k core_fields -> Py.lookup k attrs = Some v ->
                    Py.isinstance_str v = false -> Py.lookup k item = None).
Proof.
  cbv zeta.
  apply (only_string_attributes_persisted
           Sample.json_loads Sample.COLLECTION_ID Sample.TABLE_NAME
           (Sample.answering Sample.one_face PyNone PyNone Sample.frozen)
           (Sample.register_event (PyDict [("name", PyStr "A"); ("age", PyInt 30)]))
           PyNone _ _ _ (Return (PyDict []))
           (Sample.register_body (PyDict [("name", PyStr "A"); ("age", PyInt 30)]))
           _ (surjective_pairing _)).
  - right; right; right; left. reflexivity.
  - reflexivity.
  - reflexivity.
  - reflexivity.
  - repeat constructor; cbn; intuition discriminate.
Defined.



(** The two timestamps of a record.  In a registration that calls
    [put_item] and whose attributes hold no string under [created_at] or
    [updated_at], the clock was read twice, one reading after the other, and
    the item's [created_at] is the text of the first reading and its
    [updated_at] the text of the second: the handler calls [_now_ms()] once
    for each field (lines 47 and 48) and does not share one reading. *)
Lemma timestamps_are_two_readings
    jl cid tn w event ctx out tr c r req attrs :
  invocation w (register_patient.handler jl cid tn event ctx) = (out, tr) ->
  In (Called c r) tr ->
  call_api c = ddb_put_item ->
  request_body jl event = Return req ->
  Py.get req "attributes" (PyDict []) = Return (PyDict attrs) ->
  (forall s, ~ In ("created_at", PyStr s) attrs) ->
  (forall s, ~ In ("updated_at", PyStr s) attrs) ->
  exists c0 idx created updated item,
    tr = [Called c0 (Return idx); Clock created; Clock updated; Called c r]
    /\ Py.lookup "Item" (kwargs c) = Some (PyDict item)
    /\ Py.lookup "created_at" item = Some (PyDict [("N", PyStr (Py.str_int created))])
    /\ Py.lookup "updated_at" item = Some (PyDict [("N", PyStr (Py.str_int updated))]).
Proof.
  intros H Hin Hc Hreq Hattrs Hcr Hup.
  destruct (register_put_item _ _ _ _ _ _ _ _ _ _ H Hin Hc)
    as (req' & image_b64 & patient_id & attrs' & img & c0 & idx & record & face_id
        & created & updated & B & I & P & A & D & C0 & F & FI & T & K & O).
  rewrite Hreq in B; inversion B; subst req'.
  rewrite Hattrs in A; inversion A; subst attrs'.
  exists c0, idx, created, updated. eexists. rewrite K.
  split; [exact T|]. split; [reflexivity|].
  split; rewrite merge_untouched by assumption; reflexivity.
Qed.

(** C9, at the failing input.  A registration of patient P-1 without
    attributes, in a world where a millisecond passes between two readings
    of the clock.  The handler reads the clock for [created_at] and reads it
    again for [updated_at]; the record it writes holds 1700000000001 and
    1700000000002, and the request is answered 201.  The claim has the two
    fields equal. *)
Theorem two_readings_two_timestamps :
  let w := Sample.answering Sample.one_face PyNone PyNone Sample.ticking in
  let event := Sample.register_event (PyDict []) in
  let item := [("patient_id", PyDict [("S", PyStr "P-1")]);
               ("face_id", PyDict [("S", PyStr "face-1")]);
               ("created_at", PyDict [("N", PyStr "1700000000001")]);
               ("updated_at", PyDict [("N", PyStr "1700000000002")])] in
  Sample.register w event
  = (Return (json_response 201 (PyDict [("patient_id", PyStr "P-1");
                                        ("face_id", PyStr "face-1")])),
     [Called (index_faces_call Sample.COLLECTION_ID
                ["A"%byte; "B"%byte; "C"%byte] (PyStr "P-1"))
             (Return Sample.one_face);
      Clock 1700000000001;
      Clock 1700000000002;
      Called (put_item_call Sample.TABLE_NAME item) (Return (PyDict []))])
  /\ Py.lookup "created_at" item <> Py.lookup "updated_at" item.
Proof.
  cbv zeta. split; [vm_compute; reflexivity|].
  vm_compute. discriminate.
Qed.

(** So the statement of C9 does not hold of the code, with no attribute in
    play: the written record of that registration has no one reading [t] of
    the clock in both fields. *)
Lemma moving_clock_refutes_equal_timestamps : ~ timestamps_always_equal.
Proof.
  intros claim.
  destruct (claim
           Sample.json_loads Sample.COLLECTION_ID Sample.TABLE_NAME
           (Sample.answering Sample.one_face PyNone PyNone Sample.ticking)
           (Sample.register_event (PyDict []))
           PyNone _ _
           (Sample.put_item_call
              [("patient_id", PyDict [("S", PyStr "P-1")]);
               ("face_id", PyDict [("S", PyStr "face-1")]);
               ("created_at", PyDict [("N", PyStr "1700000000001")]);
               ("updated_at", PyDict [("N", PyStr "1700000000002")])])
           (Return (PyDict []))
           (surjective_pairing _)
           (or_intror (or_intror (or_intror (or_introl eq_refl))))
           eq_refl)
    as (item & t & Hitem & _ & Hcreated & Hupdated).
  vm_compute in Hitem. inversion Hitem; subst item.
  rewrite <- Hcreated in Hupdated.
  vm_compute in Hupdated. discriminate Hupdated.
Qed.

(** ** Successes *)

(** C1, amended. A registration whose body is read and holds
    [image_base64] and [patient_id], whose image decodes, whose [attributes]
    are missing or a mapping, whose recognizer returns a first face record
    with a face id, and whose [put_item] does not raise, is answered 201 with
    the body { "patient_id": the request's, "face_id": that record's }
    (both being JSON values). *)
Theorem register_created
    jl cid tn w event ctx out tr req image_b64 patient_id idx record face_id :
  invocation w (register_patient.handler jl cid tn event ctx) = (out, tr) ->
  request_body jl event = Return req ->
  Py.getitem req "image_base64" = Return image_b64 ->
  Py.getitem req "patient_id" = Return patient_id ->
  (exists img, base64.b64decode image_b64 = Return img) ->
  returned reko_index_faces idx tr ->
  first_of "FaceRecords" idx = Return record ->
  face_id_of record = Return face_id ->
  json.serializable patient_id = true ->
  json.serializable face_id = true ->
  (exists attrs, Py.get req "attributes" (PyDict []) = Return (PyDict attrs)) ->
  (forall c e, In (Called c (Raise e)) tr -> call_api c <> ddb_put_item) ->
  out = Return (json_response 201
                  (PyDict [("patient_id", patient_id); ("face_id", face_id)])).
Proof.
  intros H Hreq Himg Hpid (img & Hdec) (c & Hin & Hc) Hrec Hfid Sp Sf
         (attrs & Hattrs) Hstore.
  destruct (first_of_listed _ _ _ Hrec) as (l & Hl & Hlt).
  unfold first_of in Hrec. unfold face_id_of in Hfid.
  run_register H.
  all: try match goal with
           | E : Py.get ?ev "body" PyNone = Return ?a, E0 : _ = Return ?b |- _ =>
               let Hb := fresh in
               pose proof (request_body_steps _ ev a b E E0) as Hb;
               rewrite Hreq in Hb; inversion Hb; subst; clear Hb
           end.
  all: in_trace Hin; try discriminate Hc; try congruence.
  all: unify_steps; try congruence.
  - (* every step went through *)
    cbn in E14. rewrite Sp, Sf in E14. inversion E14; subst. reflexivity.
  - (* json.dumps of the 201 body cannot fail *)
    cbn in E14. rewrite Sp, Sf in E14. discriminate.
  - (* put_item does not raise *)
    exfalso. eapply Hstore; [right; right; right; left; reflexivity | reflexivity].
  - (* attrs.items() *)
    discriminate.
Qed.

(** C1 at work: a well-formed request, a face, a store that takes the
    write. *)
Lemma register_created_witness :
  let w := Sample.answering Sample.one_face PyNone PyNone Sample.ticking in
  let event := Sample.register_event (PyDict [("name", PyStr "A")]) in
  fst (Sample.register w event)
  = Return (json_response 201
              (PyDict [("patient_id", PyStr "P-1"); ("face_id", PyStr "face-1")])).
Proof.
  cbv zeta.
  apply (register_created
           Sample.json_loads Sample.COLLECTION_ID Sample.TABLE_NAME
           (Sample.answering Sample.one_face PyNone PyNone Sample.ticking)
           (Sample.register_event (PyDict [("name", PyStr "A")]))
           PyNone _ _
           (Sample.register_body (PyDict [("name", PyStr "A")]))
           (PyStr "QUJD") (PyStr "P-1") Sample.one_face
           (PyDict [("Face", PyDict [("FaceId", PyStr "face-1");
                                     ("Confidence", PyFloat 99.5)])])
           (PyStr "face-1")
           (surjective_pairing _)).
  - reflexivity.
  - reflexivity.
  - reflexivity.
  - eexists. reflexivity.
  - eexists. split; [left; reflexivity | reflexivity].
  - reflexivity.
  - reflexivity.
  - reflexivity.
  - reflexivity.
  - eexists. reflexivity.
  - intros c e [H|[H|[H|[H|[]]]]]; discriminate H.
Defined.

(** C1 fails as it is stated: a well-formed request, a face, and a store
    that refuses the write meet every condition of it, and the answer is
    500. *)
Lemma refused_write_is_not_created : ~ registration_always_created.
Proof.
  intros claim.
  pose proof (claim
           Sample.json_loads Sample.COLLECTION_ID Sample.TABLE_NAME
           (Sample.store_down Sample.one_face Sample.frozen)
           (Sample.register_event (PyDict [("name", PyStr "A")]))
           PyNone _ _
           (Sample.register_body (PyDict [("name", PyStr "A")]))
           (PyStr "QUJD") (PyStr "P-1") Sample.one_face
           (PyDict [("Face", PyDict [("FaceId", PyStr "face-1");
                                     ("Confidence", PyFloat 99.5)])])
           (PyStr "face-1")
           (surjective_pairing _) eq_refl eq_refl eq_refl
           (ex_intro _ _ eq_refl)
           (ex_intro _ _ (conj (or_introl eq_refl) eq_refl))
           eq_refl eq_refl eq_refl eq_refl) as H.
  vm_compute in H. discriminate H.
Qed.

(** What the handler answers there. *)
Example refused_write_response :
  fst (Sample.register
         (Sample.store_down Sample.one_face Sample.frozen)
         (Sample.register_event (PyDict [("name", PyStr "A")])))
  = Return (json_response 500
              (PyDict [("error",
                        PyStr "An error occurred (ProvisionedThroughputExceededException) when calling the PutItem operation")])).
Proof. vm_compute. reflexivity. Qed.

(** The hypothesis of C1 on the attributes is needed too: with
    "attributes": null, [attrs.items()] raises once the face is indexed. *)
Example null_attributes_response :
  fst (Sample.register
         (Sample.answering Sample.one_face PyNone PyNone Sample.frozen)
         (Sample.register_event PyNone))
  = Return (json_response 500
              (PyDict [("error", PyStr "'NoneType' object has no attribute 'items'")])).
Proof. vm_compute. reflexivity. Qed.

(** C2, amended. An identification whose recognizer returns a first match
    with a similarity and whose [query] returns a first item (distinct field
    names, each a typed attribute value, none binary) is answered 200 with a
    body that holds, for every field of the item not named [similarity], the
    plain value of that field, holds [similarity] = the recognizer's score,
    and holds nothing else. *)
Theorem identify_found
    jl cid tn th w event ctx out tr res match_ similarity q item :
  invocation w (identify_patient.handler jl cid tn th event ctx) = (out, tr) ->
  returned reko_search_faces_by_image res tr ->
  first_of "FaceMatches" res = Return match_ ->
  Py.getitem match_ "Similarity" = Return similarity ->
  returned ddb_query q tr ->
  first_of "Items" q = Return (PyDict item) ->
  NoDup (map fst item) ->
  Forall (fun kv => typed_value (snd kv) <> None) item ->
  json.serializable (PyDict item) = true ->
  json.serializable similarity = true ->
  exists result,
    out = Return (json_response 200 (PyDict result))
    /\ (forall k v, k <> "similarity" -> Py.lookup k item = Some v ->
                    exists x, typed_value v = Some x /\ Py.lookup k result = Some x)
    /\ Py.lookup "similarity" result = Some similarity
    /\ (forall k, k <> "similarity" -> Py.lookup k item = None ->
                  Py.lookup k result = None).
Proof.
  intros H (c1 & Hin1 & Hc1) Hmatch Hsim (c2 & Hin2 & Hc2) Hitem Hnd Htyped Si Ss.
  destruct (first_of_listed _ _ _ Hmatch) as (l1 & Hl1 & Hlt1).
  destruct (first_of_listed _ _ _ Hitem) as (l2 & Hl2 & Hlt2).
  unfold first_of in Hmatch, Hitem.
  run_identify H.
  all: in_trace Hin1; try discriminate Hc1; try congruence.
  all: in_trace Hin2; try discriminate Hc2; try congruence.
  all: unify_steps; try congruence.
  all: try match goal with
           | E : Py.items (PyDict _) = Return _ |- _ =>
               unfold Py.items in E; inversion E; subst; clear E
           | E : Py.items (PyDict _) = Raise _ |- _ => discriminate E
           end.
  all: try match goal with
           | E : identify_patient.flatten ?it [] = Raise _, Ht : Forall _ ?it |- _ =>
               let x := fresh in let Hx := fresh in
               destruct (flatten_total it [] Ht) as (x & Hx); congruence
           end.
  all: match goal with
       | E : identify_patient.flatten ?it [] = Return ?result0,
         Hn : NoDup (map fst ?it),
         Hi : json.serializable (PyDict ?it) = true,
         Hs : json.serializable ?sim = true |- _ =>
           pose proof (flatten_serializable _ _ _ E Hi eq_refl) as Sr;
           pose proof (setitem_serializable _ "similarity" _ Sr Hs) as Sr';
           destruct (flatten_lookup _ _ _ E Hn) as (F1 & F2)
       end.
  all: cbn in Sr'.
  all: match goal with
       | E : match (if _ then _ else _) with Return _ => _ | Raise _ => _ end = _ |- _ =>
           rewrite Sr' in E; inversion E; subst; clear E
       end.
  eexists. split; [reflexivity|]. split; [|split].
  - intros k v Hk Hv. destruct (F1 k v Hv) as (x & Hx & Hr).
    exists x. split; auto. rewrite lookup_setitem_other; auto.
  - apply lookup_setitem_same.
  - intros k Hk Hno. rewrite lookup_setitem_other by assumption.
    rewrite F2 by assumption. reflexivity.
Qed.

(** C2 at work: a stored record with a name. *)
Lemma identify_found_witness :
  let item := [("patient_id", PyDict [("S", PyStr "P-1")]);
               ("face_id", PyDict [("S", PyStr "face-1")]);
               ("name", PyDict [("S", PyStr "A")])] in
  let w := Sample.answering PyNone Sample.one_match (Sample.one_item item) Sample.frozen in
  let event := Sample.identify_event "QUJD" in
  exists result,
    fst (Sample.identify w event) = Return (json_response 200 (PyDict result))
    /\ (forall k v, k <> "similarity" -> Py.lookup k item = Some v ->
                    exists x, typed_value v = Some x /\ Py.lookup k result = Some x)
    /\ Py.lookup "similarity" result = Some (PyFloat 97.5)
    /\ (forall k, k <> "similarity" -> Py.lookup k item = None ->
                  Py.lookup k result = None).
Proof.
  cbv zeta.
  apply (identify_found
           Sample.json_loads Sample.COLLECTION_ID Sample.TABLE_NAME Sample.THRESHOLD
           (Sample.answering PyNone Sample.one_match
              (Sample.one_item [("patient_id", PyDict [("S", PyStr "P-1")]);
                                ("face_id", PyDict [("S", PyStr "face-1")]);
                                ("name", PyDict [("S", PyStr "A")])])
              Sample.frozen)
           (Sample.identify_event "QUJD") PyNone _ _
           Sample.one_match
           (PyDict [("Face", PyDict [("FaceId", PyStr "face-1")]);
                    ("Similarity", PyFloat 97.5)])
           (PyFloat 97.5)
           (Sample.one_item [("patient_id", PyDict [("S", PyStr "P-1")]);
                             ("face_id", PyDict [("S", PyStr "face-1")]);
                             ("name", PyDict [("S", PyStr "A")])])
           _ (surjective_pairing _)).
  - eexists. split; [left; reflexivity | reflexivity].
  - reflexivity.
  - reflexivity.
  - eexists. split; [right; left; reflexivity | reflexivity].
  - reflexivity.
  - repeat constructor; cbn; intuition discriminate.
  - repeat constructor; cbn; discriminate.
  - reflexivity.
  - reflexivity.
Defined.

(** C2 fails as it is stated: for a patient registered with an attribute
    named [similarity], the score takes the place of the stored value in the
    response. *)
Lemma stored_similarity_is_not_returned : ~ every_stored_field_returned.
Proof.
  intros claim.
  destruct (claim
           Sample.json_loads Sample.COLLECTION_ID Sample.TABLE_NAME Sample.THRESHOLD
           (Sample.answering PyNone Sample.one_match
              (Sample.one_item [("patient_id", PyDict [("S", PyStr "P-1")]);
                                ("similarity", PyDict [("S", PyStr "high")])])
              Sample.frozen)
           (Sample.identify_event "QUJD") PyNone _ _
           Sample.one_match
           (PyDict [("Face", PyDict [("FaceId", PyStr "face-1")]);
                    ("Similarity", PyFloat 97.5)])
           (PyFloat 97.5)
           (Sample.one_item [("patient_id", PyDict [("S", PyStr "P-1")]);
                             ("similarity", PyDict [("S", PyStr "high")])])
           _ (surjective_pairing _)
           (ex_intro _ _ (conj (or_introl eq_refl) eq_refl))
           eq_refl eq_refl
           (ex_intro _ _ (conj (or_intror (or_introl eq_refl)) eq_refl))
           eq_refl)
    as (result & Hout & Hfields & Hsim).
  - repeat constructor; cbn; intuition discriminate.
  - repeat constructor; cbn; discriminate.
  - reflexivity.
  - reflexivity.
  - vm_compute in Hout. inversion Hout; subst result.
    destruct (Hfields "similarity" _ eq_refl) as (x & Hx & Hr).
    vm_compute in Hx, Hr. congruence.
Qed.

(** What the handler answers there. *)
Example stored_similarity_response :
  fst (Sample.identify
         (Sample.answering PyNone Sample.one_match
            (Sample.one_item [("patient_id", PyDict [("S", PyStr "P-1")]);
                              ("similarity", PyDict [("S", PyStr "high")])])
            Sample.frozen)
         (Sample.identify_event "QUJD"))
  = Return (json_response 200
              (PyDict [("patient_id", PyStr "P-1"); ("similarity", PyFloat 97.5)])).
Proof. vm_compute. reflexivity. Qed.

(** The hypothesis of C2 on binary attributes is needed too: bytes do not
    go through [json.dumps]. *)
Example binary_attribute_response :
  fst (Sample.identify
         (Sample.answering PyNone Sample.one_match
            (Sample.one_item [("patient_id", PyDict [("S", PyStr "P-1")]);
                              ("photo", PyDict [("B", PyBytes ["A"%byte])])])
            Sample.frozen)
         (Sample.identify_event "QUJD"))
  = Return (json_response 500
              (PyDict [("error", PyStr "Object of type bytes is not JSON serializable")])).
Proof. vm_compute. reflexivity. Qed.


(** * Part III: more of the handlers *)

(** ** The handlers, stage by stage *)

Lemma request_body_outcome jl event body_raw o :
  Py.get event "body" PyNone = Return body_raw ->
  match body_raw with
  | PyStr s => jl s
  | _ => Return (Py.or_ body_raw (PyDict []))
  end = o ->
  request_body jl event = o.
Proof.
  intros E E0. unfold request_body. rewrite E. destruct body_raw; auto.
Qed.

Ltac split_goal_step :=
  match goal with
  | |- context [match ?x with Return _ => _ | Raise _ => _ end] =>
      let E := fresh "E" in destruct x eqn:E; cbn
  | |- context [if ?b then _ else _] =>
      let E := fresh "E" in destruct b eqn:E; cbn
  end.

(** One registration, written out stage by stage. *)
Lemma register_stages jl cid tn w event ctx :
  invocation w (register_patient.handler jl cid tn event ctx) =
  match request_body jl event with
  | Raise e => (Return (failure e), [])
  | Return req =>
  match Py.getitem req "image_base64" with
  | Raise e => (Return (failure e), [])
  | Return image_b64 =>
  match Py.getitem req "patient_id" with
  | Raise e => (Return (failure e), [])
  | Return patient_id =>
  match Py.get req "attributes" (PyDict []) with
  | Raise e => (Return (failure e), [])
  | Return attrs =>
  match base64.b64decode image_b64 with
  | Raise e => (Return (failure e), [])
  | Return img =>
  let c0 := index_faces_call cid img patient_id in
  match respond w [] c0 with
  | Raise e => (Return (failure e), [Called c0 (Raise e)])
  | Return idx =>
  let h1 := [Called c0 (Return idx)] in
  match Py.get idx "FaceRecords" PyNone with
  | Raise e => (Return (failure e), h1)
  | Return face_records =>
  if negb (Py.truthy face_records) then
    (Return (json_response 422
               (PyDict [("message", PyStr "No face detected or poor quality.")])), h1)
  else
  match first_of "FaceRecords" idx with
  | Raise e => (Return (failure e), h1)
  | Return record =>
  match face_id_of record with
  | Raise e => (Return (failure e), h1)
  | Return face_id =>
  let created := time_ms w h1 in
  let h2 := (h1 ++ [Clock created])%list in
  let updated := time_ms w h2 in
  let h3 := (h2 ++ [Clock updated])%list in
  match Py.items attrs with
  | Raise e => (Return (failure e), h3)
  | Return entries =>
  let c1 := put_item_call tn (merge entries (core_item patient_id face_id created updated)) in
  let r := respond w h3 c1 in
  (match r with
   | Return _ =>
       caught (register_patient._resp 201
                 (PyDict [("patient_id", patient_id); ("face_id", face_id)]))
   | Raise e => Return (failure e)
   end, (h3 ++ [Called c1 r])%list)
  end end end end end end end end end end.
Proof.
  destruct (invocation w (register_patient.handler jl cid tn event ctx))
    as [out tr] eqn:H.
  run_register H.
  all: unfold first_of, face_id_of, index_faces_call, put_item_call, caught,
         register_patient._resp, json.dumps, merge, core_item.
  all: match goal with
       | E : Py.get _ "body" PyNone = Return _, E0 : _ = _ |- _ =>
           rewrite (request_body_outcome _ _ _ _ E E0)
       | E : Py.get _ "body" PyNone = Raise _ |- _ =>
           unfold request_body; rewrite E
       end.
  all: cbn; repeat (match goal with E : ?x = _ |- context [?x] => rewrite E end; cbn).
  all: reflexivity.
Qed.

(** One identification, written out stage by stage. *)
Lemma identify_stages jl cid tn th w event ctx :
  invocation w (identify_patient.handler jl cid tn th event ctx) =
  match request_body jl event with
  | Raise e => (Return (failure e), [])
  | Return req =>
  match Py.getitem req "image_base64" with
  | Raise e => (Return (failure e), [])
  | Return image_b64 =>
  match base64.b64decode image_b64 with
  | Raise e => (Return (failure e), [])
  | Return img =>
  let c0 := search_faces_call cid th img in
  match respond w [] c0 with
  | Raise e => (Return (failure e), [Called c0 (Raise e)])
  | Return res =>
  let h1 := [Called c0 (Return res)] in
  match Py.get res "FaceMatches" PyNone with
  | Raise e => (Return (failure e), h1)
  | Return face_matches =>
  if negb (Py.truthy face_matches) then
    (Return (json_response 404 (PyDict [("message", PyStr "No confident match")])), h1)
  else
  match first_of "FaceMatches" res with
  | Raise e => (Return (failure e), h1)
  | Return match_ =>
  match face_id_of match_ with
  | Raise e => (Return (failure e), h1)
  | Return face_id =>
  match Py.getitem match_ "Similarity" with
  | Raise e => (Return (failure e), h1)
  | Return similarity =>
  let c1 := query_call tn face_id in
  match respond w h1 c1 with
  | Raise e => (Return (failure e), (h1 ++ [Called c1 (Raise e)])%list)
  | Return q =>
  let h2 := (h1 ++ [Called c1 (Return q)])%list in
  match Py.get q "Items" PyNone with
  | Raise e => (Return (failure e), h2)
  | Return items =>
  if negb (Py.truthy items) then
    (Return (json_response 404
               (PyDict [("message", PyStr "Face mapped but no patient record")])), h2)
  else
  match first_of "Items" q with
  | Raise e => (Return (failure e), h2)
  | Return item =>
  match Py.items item with
  | Raise e => (Return (failure e), h2)
  | Return entries =>
  match identify_patient.flatten entries [] with
  | Raise e => (Return (failure e), h2)
  | Return result =>
  (caught (identify_patient._resp 200
             (PyDict (Py.setitem result "similarity" similarity))), h2)
  end end end end end end end end end end end end end.
Proof.
  destruct (invocation w (identify_patient.handler jl cid tn th event ctx))
    as [out tr] eqn:H.
  run_identify H.
  all: unfold first_of, face_id_of, search_faces_call, query_call, caught,
         identify_patient._resp, json.dumps.
  all: match goal with
       | E : Py.get _ "body" PyNone = Return _, E0 : _ = _ |- _ =>
           rewrite (request_body_outcome _ _ _ _ E E0)
       | E : Py.get _ "body" PyNone = Raise _ |- _ =>
           unfold request_body; rewrite E
       end.
  all: cbn; repeat (match goal with E : ?x = _ |- context [?x] => rewrite E end; cbn).
  all: reflexivity.
Qed.

(** ** Requests that are turned away before any call *)

(** X1. When the body cannot be read (the event is no mapping, or its body
    is a text [json.loads] rejects), both handlers answer 500 with the text
    of that error and call no collaborator. *)
Theorem unreadable_body_is_500 jl cid tn th w event ctx e :
  request_body jl event = Raise e ->
  invocation w (register_patient.handler jl cid tn event ctx)
  = (Return (failure e), [])
  /\ invocation w (identify_patient.handler jl cid tn th event ctx)
     = (Return (failure e), []).
Proof.
  intros H. rewrite register_stages, identify_stages, H. split; reflexivity.
Qed.

(** X1 at work: a body that is no JSON, as in the repository's
    [test_invalid_json]. *)
Lemma unreadable_body_is_500_witness :
  let e := Exception "JSONDecodeError" "Expecting value: line 1 column 1 (char 0)" in
  let event := PyDict [("body", PyStr "invalid json")] in
  Sample.register Outage.recognizer_down event = (Return (failure e), [])
  /\ Sample.identify Outage.recognizer_down event = (Return (failure e), []).
Proof.
  cbv zeta.
  exact (unreadable_body_is_500 Sample.json_loads Sample.COLLECTION_ID
           Sample.TABLE_NAME Sample.THRESHOLD Outage.recognizer_down
           (PyDict [("body", PyStr "invalid json")]) PyNone
           (Exception "JSONDecodeError" "Expecting value: line 1 column 1 (char 0)")
           eq_refl).
Defined.

(** X2. When the body is a mapping without [image_base64], both handlers
    answer 500 with the error text 'image_base64' (the key, quoted) and call
    no collaborator. *)
Theorem missing_image_is_500 jl cid tn th w event ctx d :
  request_body jl event = Return (PyDict d) ->
  Py.lookup "image_base64" d = None ->
  invocation w (register_patient.handler jl cid tn event ctx)
  = (Return (json_response 500 (PyDict [("error", PyStr "'image_base64'")])), [])
  /\ invocation w (identify_patient.handler jl cid tn th event ctx)
     = (Return (json_response 500 (PyDict [("error", PyStr "'image_base64'")])), []).
Proof.
  intros H Hd. rewrite register_stages, identify_stages, H.
  unfold Py.getitem. rewrite Hd. split; reflexivity.
Qed.

(** X2 at work: a registration with a patient id and no image, as in the
    repository's [test_missing_required_fields]. *)
Lemma missing_image_is_500_witness :
  let event := PyDict [("body", PyDict [("patient_id", PyStr "P-TEST-003")])] in
  let w := Sample.answering Sample.one_face Sample.one_match Sample.no_item Sample.frozen in
  Sample.register w event
  = (Return (json_response 500 (PyDict [("error", PyStr "'image_base64'")])), [])
  /\ Sample.identify w event
     = (Return (json_response 500 (PyDict [("error", PyStr "'image_base64'")])), []).
Proof.
  cbv zeta.
  exact (missing_image_is_500 Sample.json_loads Sample.COLLECTION_ID
           Sample.TABLE_NAME Sample.THRESHOLD
           (Sample.answering Sample.one_face Sample.one_match Sample.no_item Sample.frozen)
           (PyDict [("body", PyDict [("patient_id", PyStr "P-TEST-003")])]) PyNone
           [("patient_id", PyStr "P-TEST-003")] eq_refl eq_refl).
Defined.

(** X3. An event that is a mapping with no [body], or with a body that is
    not a text and is falsy (None, {}, [], 0, False), is read as the empty
    request {}: both handlers answer 500 with the error text 'image_base64'
    and call no collaborator. *)
Theorem absent_body_is_500 jl cid tn th w ev ctx :
  match Py.lookup "body" ev with
  | None => True
  | Some body_raw => Py.isinstance_str body_raw = false /\ Py.truthy body_raw = false
  end ->
  invocation w (register_patient.handler jl cid tn (PyDict ev) ctx)
  = (Return (json_response 500 (PyDict [("error", PyStr "'image_base64'")])), [])
  /\ invocation w (identify_patient.handler jl cid tn th (PyDict ev) ctx)
     = (Return (json_response 500 (PyDict [("error", PyStr "'image_base64'")])), []).
Proof.
  intros H.
  assert (Hreq : request_body jl (PyDict ev) = Return (PyDict [])).
  { unfold request_body, Py.get.
    destruct (Py.lookup "body" ev) as [body_raw|]; [|reflexivity].
    destruct H as (Hs & Ht).
    destruct body_raw; try discriminate Hs; unfold Py.or_; rewrite Ht; reflexivity. }
  rewrite register_stages, identify_stages, Hreq. split; reflexivity.
Qed.

(** X3 at work: an event whose body is null. *)
Lemma absent_body_is_500_witness :
  let w := Sample.answering Sample.one_face Sample.one_match Sample.no_item Sample.frozen in
  Sample.register w (PyDict [("body", PyNone)])
  = (Return (json_response 500 (PyDict [("error", PyStr "'image_base64'")])), [])
  /\ Sample.identify w (PyDict [("body", PyNone)])
     = (Return (json_response 500 (PyDict [("error", PyStr "'image_base64'")])), []).
Proof.
  cbv zeta.
  apply (absent_body_is_500 Sample.json_loads Sample.COLLECTION_ID
           Sample.TABLE_NAME Sample.THRESHOLD
           (Sample.answering Sample.one_face Sample.one_match Sample.no_item Sample.frozen)
           [("body", PyNone)] PyNone).
  simpl. split; reflexivity.
Defined.

(** X4. A registration whose body holds [image_base64] and no [patient_id]
    is answered 500 with the error text 'patient_id' and calls no
    collaborator, whatever the image is: the image is not decoded before the
    patient id is looked up. *)
Theorem missing_patient_id_is_500 jl cid tn w event ctx d image_b64 :
  request_body jl event = Return (PyDict d) ->
  Py.lookup "image_base64" d = Some image_b64 ->
  Py.lookup "patient_id" d = None ->
  invocation w (register_patient.handler jl cid tn event ctx)
  = (Return (json_response 500 (PyDict [("error", PyStr "'patient_id'")])), []).
Proof.
  intros H Hi Hp. rewrite register_stages, H.
  unfold Py.getitem. rewrite Hi, Hp. reflexivity.
Qed.

(** X4 at work: an image and nothing else. *)
Lemma missing_patient_id_is_500_witness :
  Sample.register
    (Sample.answering Sample.one_face Sample.one_match Sample.no_item Sample.frozen)
    (Sample.identify_event "QUJD")
  = (Return (json_response 500 (PyDict [("error", PyStr "'patient_id'")])), []).
Proof.
  exact (missing_patient_id_is_500 Sample.json_loads Sample.COLLECTION_ID
           Sample.TABLE_NAME
           (Sample.answering Sample.one_face Sample.one_match Sample.no_item Sample.frozen)
           (Sample.identify_event "QUJD") PyNone
           [("image_base64", PyStr "QUJD")] (PyStr "QUJD")
           eq_refl eq_refl eq_refl).
Defined.



(** ** Collaborators that raise *)

(** Run a handler written out in stages in [H] down to its leaves. *)
Ltac stages H := exec H; inversion H; subst; clear H; booleans.

(** X6. Registration: when [index_faces] raises, the response is 500 with
    the text of that error, and that call is the only thing the invocation
    did: the clock is not read and the store is not called. *)
Theorem register_recognizer_error jl cid tn w event ctx out tr c e :
  invocation w (register_patient.handler jl cid tn event ctx) = (out, tr) ->
  In (Called c (Raise e)) tr ->
  call_api c = reko_index_faces ->
  out = Return (failure e) /\ tr = [Called c (Raise e)].
Proof.
  intros H Hin Hc. rewrite register_stages in H. stages H;
    in_trace Hin; try discriminate Hc.
  split; reflexivity.
Qed.

(** X6 at work: a throttled recognizer. *)
Lemma register_recognizer_error_witness :
  let e := Exception "ThrottlingException" "Rate exceeded" in
  let c := index_faces_call Sample.COLLECTION_ID ["A"%byte; "B"%byte; "C"%byte]
             (PyStr "P-1") in
  fst (Sample.register Outage.recognizer_down (Sample.register_event (PyDict [])))
  = Return (failure e)
  /\ snd (Sample.register Outage.recognizer_down (Sample.register_event (PyDict [])))
     = [Called c (Raise e)].
Proof.
  cbv zeta.
  apply (register_recognizer_error Sample.json_loads Sample.COLLECTION_ID
           Sample.TABLE_NAME Outage.recognizer_down
           (Sample.register_event (PyDict [])) PyNone _ _ _ _
           (surjective_pairing _)).
  - left. reflexivity.
  - reflexivity.
Defined.

(** X7. Identification: when [search_faces_by_image] raises, the response is
    500 with the text of that error, and that call is the only thing the
    invocation did: the store is not queried. *)
Theorem identify_recognizer_error jl cid tn th w event ctx out tr c e :
  invocation w (identify_patient.handler jl cid tn th event ctx) = (out, tr) ->
  In (Called c (Raise e)) tr ->
  call_api c = reko_search_faces_by_image ->
  out = Return (failure e) /\ tr = [Called c (Raise e)].
Proof.
  intros H Hin Hc. rewrite identify_stages in H. stages H;
    in_trace Hin; try discriminate Hc.
  split; reflexivity.
Qed.

(** X7 at work: a throttled recognizer. *)
Lemma identify_recognizer_error_witness :
  let e := Exception "ThrottlingException" "Rate exceeded" in
  let c := search_faces_call Sample.COLLECTION_ID Sample.THRESHOLD
             ["A"%byte; "B"%byte; "C"%byte] in
  fst (Sample.identify Outage.recognizer_down (Sample.identify_event "QUJD"))
  = Return (failure e)
  /\ snd (Sample.identify Outage.recognizer_down (Sample.identify_event "QUJD"))
     = [Called c (Raise e)].
Proof.
  cbv zeta.
  apply (identify_recognizer_error Sample.json_loads Sample.COLLECTION_ID
           Sample.TABLE_NAME Sample.THRESHOLD Outage.recognizer_down
           (Sample.identify_event "QUJD") PyNone _ _ _ _
           (surjective_pairing _)).
  - left. reflexivity.
  - reflexivity.
Defined.

(** X8. Registration: when [put_item] raises, the response is 500 with the
    text of that error, and nothing is undone: the invocation has had a
    face record back from [index_faces] before, and the failed write is the
    last thing it did. *)
Theorem register_store_error jl cid tn w event ctx out tr c e :
  invocation w (register_patient.handler jl cid tn event ctx) = (out, tr) ->
  In (Called c (Raise e)) tr ->
  call_api c = ddb_put_item ->
  out = Return (failure e)
  /\ exists c0 idx created updated,
       call_api c0 = reko_index_faces
       /\ ~ lists_nothing "FaceRecords" idx
       /\ tr = [Called c0 (Return idx); Clock created; Clock updated;
                Called c (Raise e)].
Proof.
  intros H Hin Hc. rewrite register_stages in H. stages H;
    in_trace Hin; try discriminate Hc.
  split; [reflexivity|].
  eexists _, _, _, _. refine (conj _ (conj _ eq_refl)); [reflexivity|].
  intros (v & Hv & Hf). congruence.
Qed.

(** X8 at work: a store that refuses the write. *)
Lemma register_store_error_witness :
  let e := Exception "ProvisionedThroughputExceededException"
             "An error occurred (ProvisionedThroughputExceededException) when calling the PutItem operation" in
  let w := Sample.store_down Sample.one_face Sample.frozen in
  let event := Sample.register_event (PyDict []) in
  let c := put_item_call Sample.TABLE_NAME
             (core_item (PyStr "P-1") (PyStr "face-1") 1700000000000 1700000000000) in
  fst (Sample.register w event) = Return (failure e)
  /\ exists c0 idx created updated,
       call_api c0 = reko_index_faces
       /\ ~ lists_nothing "FaceRecords" idx
       /\ snd (Sample.register w event)
          = [Called c0 (Return idx); Clock created; Clock updated;
             Called c (Raise e)].
Proof.
  cbv zeta.
  apply (register_store_error Sample.json_loads Sample.COLLECTION_ID
           Sample.TABLE_NAME (Sample.store_down Sample.one_face Sample.frozen)
           (Sample.register_event (PyDict [])) PyNone _ _ _ _
           (surjective_pairing _)).
  - right; right; right; left. reflexivity.
  - reflexivity.
Defined.

(** X9. Identification: when [query] raises, the response is 500 with the
    text of that error; the invocation made the search, which returned, and
    the query, and nothing else. *)
Theorem identify_store_error jl cid tn th w event ctx out tr c e :
  invocation w (identify_patient.handler jl cid tn th event ctx) = (out, tr) ->
  In (Called c (Raise e)) tr ->
  call_api c = ddb_query ->
  out = Return (failure e)
  /\ exists c0 res,
       call_api c0 = reko_search_faces_by_image
       /\ tr = [Called c0 (Return res); Called c (Raise e)].
Proof.
  intros H Hin Hc. rewrite identify_stages in H. stages H;
    in_trace Hin; try discriminate Hc.
  split; [reflexivity|].
  eexists _, _. refine (conj _ eq_refl). reflexivity.
Qed.

(** X9 at work: a table that is gone. *)
Lemma identify_store_error_witness :
  let e := Exception "ResourceNotFoundException" "Requested resource not found" in
  let w := Outage.query_down Sample.one_match in
  let event := Sample.identify_event "QUJD" in
  let c := query_call Sample.TABLE_NAME (PyStr "face-1") in
  fst (Sample.identify w event) = Return (failure e)
  /\ exists c0 res,
       call_api c0 = reko_search_faces_by_image
       /\ snd (Sample.identify w event) = [Called c0 (Return res); Called c (Raise e)].
Proof.
  cbv zeta.
  apply (identify_store_error Sample.json_loads Sample.COLLECTION_ID
           Sample.TABLE_NAME Sample.THRESHOLD (Outage.query_down Sample.one_match)
           (Sample.identify_event "QUJD") PyNone _ _ _ _
           (surjective_pairing _)).
  - right; left. reflexivity.
  - reflexivity.
Defined.

(** ** What the handlers call, and in which order *)

(** X10. A registration does one of four things and nothing else: no call
    at all; one [index_faces]; one [index_faces] and two clock readings;
    one [index_faces], two clock readings and one [put_item], in that
    order.  It never searches the collection and never queries the store. *)
Theorem register_call_order jl cid tn w event ctx :
  let tr := snd (invocation w (register_patient.handler jl cid tn event ctx)) in
  tr = []
  \/ exists c0 r0,
       call_api c0 = reko_index_faces
       /\ (tr = [Called c0 r0]
           \/ exists created updated,
                tr = [Called c0 r0; Clock created; Clock updated]
                \/ exists c1 r1,
                     call_api c1 = ddb_put_item
                     /\ tr = [Called c0 r0; Clock created; Clock updated;
                              Called c1 r1]).
Proof.
  cbv zeta. rewrite register_stages. cbv zeta.
  repeat split_goal_step; cbn;
    first [ left; reflexivity
          | right; eexists _, _; refine (conj _ _);
            [| first [ left; reflexivity
                     | right; eexists _, _;
                       first [ left; reflexivity
                             | right; eexists _, _;
                               refine (conj _ eq_refl); reflexivity ] ] ];
            reflexivity ].
Qed.

(** X11. An identification does one of three things and nothing else: no
    call at all; one [search_faces_by_image]; one search followed by one
    [query].  It never writes to the store, never indexes a face and never
    reads the clock. *)
Theorem identify_call_order jl cid tn th w event ctx :
  let tr := snd (invocation w (identify_patient.handler jl cid tn th event ctx)) in
  tr = []
  \/ exists c0 r0,
       call_api c0 = reko_search_faces_by_image
       /\ (tr = [Called c0 r0]
           \/ exists c1 r1,
                call_api c1 = ddb_query /\ tr = [Called c0 r0; Called c1 r1]).
Proof.
  cbv zeta. rewrite identify_stages. cbv zeta.
  repeat split_goal_step; cbn;
    first [ left; reflexivity
          | right; eexists _, _; refine (conj _ _);
            [| first [ left; reflexivity
                     | right; eexists _, _;
                       refine (conj _ eq_refl); reflexivity ] ];
            reflexivity ].
Qed.

(** X12. Whenever a registration calls [index_faces], the request was read,
    its image decoded, and the call carries the configured collection, the
    decoded bytes, the request's [patient_id] as ExternalImageId,
    DetectionAttributes ['DEFAULT'], MaxFaces 1 and QualityFilter 'AUTO'. *)
Theorem register_recognizer_request jl cid tn w event ctx out tr c r :
  invocation w (register_patient.handler jl cid tn event ctx) = (out, tr) ->
  In (Called c r) tr ->
  call_api c = reko_index_faces ->
  exists req image_b64 img_bytes patient_id,
    request_body jl event = Return req
    /\ Py.getitem req "image_base64" = Return image_b64
    /\ base64.b64decode image_b64 = Return img_bytes
    /\ Py.getitem req "patient_id" = Return patient_id
    /\ c = index_faces_call cid img_bytes patient_id.
Proof.
  intros H Hin Hc. rewrite register_stages in H. stages H;
    in_trace Hin; try discriminate Hc.
  all: eexists _, _, _, _; repeat split; eassumption.
Qed.

(** X12 at work. *)
Lemma register_recognizer_request_witness :
  exists req image_b64 img_bytes patient_id,
    request_body Sample.json_loads (Sample.register_event (PyDict [])) = Return req
    /\ Py.getitem req "image_base64" = Return image_b64
    /\ base64.b64decode image_b64 = Return img_bytes
    /\ Py.getitem req "patient_id" = Return patient_id
    /\ index_faces_call Sample.COLLECTION_ID ["A"%byte; "B"%byte; "C"%byte] (PyStr "P-1")
       = index_faces_call Sample.COLLECTION_ID img_bytes patient_id.
Proof.
  apply (register_recognizer_request Sample.json_loads Sample.COLLECTION_ID
           Sample.TABLE_NAME
           (Sample.answering Sample.no_face PyNone PyNone Sample.frozen)
           (Sample.register_event (PyDict [])) PyNone _ _ _ (Return Sample.no_face)
           (surjective_pairing _)).
  - left. reflexivity.
  - reflexivity.
Defined.

(** X13. Whenever an identification calls [search_faces_by_image], the
    request was read, its image decoded, and the call carries the configured
    collection, the decoded bytes, the configured threshold and MaxFaces 1. *)
Theorem identify_recognizer_request jl cid tn th w event ctx out tr c r :
  invocation w (identify_patient.handler jl cid tn th event ctx) = (out, tr) ->
  In (Called c r) tr ->
  call_api c = reko_search_faces_by_image ->
  exists req image_b64 img_bytes,
    request_body jl event = Return req
    /\ Py.getitem req "image_base64" = Return image_b64
    /\ base64.b64decode image_b64 = Return img_bytes
    /\ c = search_faces_call cid th img_bytes.
Proof.
  intros H Hin Hc. rewrite identify_stages in H. stages H;
    in_trace Hin; try discriminate Hc.
  all: eexists _, _, _; repeat split; eassumption.
Qed.

(** X13 at work. *)
Lemma identify_recognizer_request_witness :
  exists req image_b64 img_bytes,
    request_body Sample.json_loads (Sample.identify_event "QUJD") = Return req
    /\ Py.getitem req "image_base64" = Return image_b64
    /\ base64.b64decode image_b64 = Return img_bytes
    /\ search_faces_call Sample.COLLECTION_ID Sample.THRESHOLD
         ["A"%byte; "B"%byte; "C"%byte]
       = search_faces_call Sample.COLLECTION_ID Sample.THRESHOLD img_bytes.
Proof.
  apply (identify_recognizer_request Sample.json_loads Sample.COLLECTION_ID
           Sample.TABLE_NAME Sample.THRESHOLD
           (Sample.answering PyNone Sample.no_match PyNone Sample.frozen)
           (Sample.identify_event "QUJD") PyNone _ _ _ (Return Sample.no_match)
           (surjective_pairing _)).
  - left. reflexivity.
  - reflexivity.
Defined.

(** ** The record a registration writes, again *)

Lemma setitem_keys (d : dict) key v k :
  In k (map fst (Py.setitem d key v)) <-> k = key \/ In k (map fst d).
Proof.
  induction d as [|[k0 x] rest IH]; cbn.
  - intuition.
  - destruct (String.eqb_spec k0 key); cbn.
    + subst k0. intuition.
    + rewrite IH. intuition.
Qed.

Lemma setitem_nodup (d : dict) key v :
  NoDup (map fst d) -> NoDup (map fst (Py.setitem d key v)).
Proof.
  induction d as [|[k0 x] rest IH]; cbn; intros Hnd.
  - constructor; [intros []|constructor].
  - inversion Hnd; subst.
    destruct (String.eqb_spec k0 key); cbn.
    + constructor; assumption.
    + constructor; [|auto].
      rewrite setitem_keys. intros [H|H]; [congruence|contradiction].
Qed.

Lemma setitem_forall (P : pyval -> Prop) (d : dict) key v :
  Forall (fun kv => P (snd kv)) d -> P v ->
  Forall (fun kv => P (snd kv)) (Py.setitem d key v).
Proof.
  intros Hd Hv. induction d as [|[k0 x] rest IH]; cbn.
  - constructor; [assumption|constructor].
  - inversion Hd; subst.
    destruct (String.eqb k0 key); constructor; auto.
Qed.

Lemma setitem_keeps (d : dict) key v k :
  Py.lookup k d <> None -> Py.lookup k (Py.setitem d key v) <> None.
Proof.
  intros H. destruct (String.eqb_spec k key).
  - subst. rewrite lookup_setitem_same. discriminate.
  - rewrite lookup_setitem_other by assumption. assumption.
Qed.

Lemma merge_record entries : forall item,
  NoDup (map fst item) ->
  Forall (fun kv => written_field (snd kv)) item ->
  NoDup (map fst (merge entries item))
  /\ Forall (fun kv => written_field (snd kv)) (merge entries item)
  /\ forall k, Py.lookup k item <> None -> Py.lookup k (merge entries item) <> None.
Proof.
  induction entries as [|[k v] rest IH]; intros item Hnd Hw; cbn.
  - auto.
  - destruct v; cbn; try (apply IH; assumption).
    destruct (IH (Py.setitem item k (PyDict [("S", PyStr s)]))) as (I1 & I2 & I3).
    + now apply setitem_nodup.
    + apply setitem_forall; [assumption|]. left. eexists. reflexivity.
    + repeat split; auto. intros k' Hk'. apply I3. now apply setitem_keeps.
Qed.

Lemma core_item_record patient_id face_id created updated :
  NoDup (map fst (core_item patient_id face_id created updated))
  /\ Forall (fun kv => written_field (snd kv))
       (core_item patient_id face_id created updated)
  /\ Forall (fun k => Py.lookup k (core_item patient_id face_id created updated) <> None)
       core_fields.
Proof.
  split; [|split].
  - cbn. repeat constructor; cbn; intuition discriminate.
  - unfold core_item.
    constructor; [left; eexists; reflexivity|].
    constructor; [left; eexists; reflexivity|].
    constructor; [right; eexists; reflexivity|].
    constructor; [right; eexists; reflexivity|].
    constructor.
  - unfold core_fields.
    repeat (constructor; [cbn; discriminate|]). constructor.
Qed.

(** X14. Every item a registration passes to [put_item] goes to the
    configured table and is a well-formed record: its field names are
    distinct, every field is {'S': value} or {'N': text}, and the four core
    fields patient_id, face_id, created_at and updated_at are present. *)
Theorem written_item_is_a_record jl cid tn w event ctx out tr c r :
  invocation w (register_patient.handler jl cid tn event ctx) = (out, tr) ->
  In (Called c r) tr ->
  call_api c = ddb_put_item ->
  exists item,
    c = put_item_call tn item
    /\ NoDup (map fst item)
    /\ Forall (fun kv => written_field (snd kv)) item
    /\ Forall (fun k => Py.lookup k item <> None) core_fields.
Proof.
  intros H Hin Hc. rewrite register_stages in H. stages H;
    in_trace Hin; try discriminate Hc.
  all: eexists; split; [reflexivity|].
  all: match goal with
       | |- context [merge ?entries (core_item ?p ?f ?t1 ?t2)] =>
           destruct (core_item_record p f t1 t2) as (C1 & C2 & C3);
           destruct (merge_record entries _ C1 C2) as (M1 & M2 & M3)
       end.
  all: repeat split; auto.
  all: rewrite Forall_forall in *; intros k Hk; apply M3; auto.
Qed.

(** X14 at work: a name, an age and a patient id among the attributes. *)
Lemma written_item_is_a_record_witness :
  exists item,
    put_item_call Sample.TABLE_NAME
      [("patient_id", PyDict [("S", PyStr "P-2")]);
       ("face_id", PyDict [("S", PyStr "face-1")]);
       ("created_at", PyDict [("N", PyStr "1700000000000")]);
       ("updated_at", PyDict [("N", PyStr "1700000000000")]);
       ("name", PyDict [("S", PyStr "A")])]
    = put_item_call Sample.TABLE_NAME item
    /\ NoDup (map fst item)
    /\ Forall (fun kv => written_field (snd kv)) item
    /\ Forall (fun k => Py.lookup k item <> None) core_fields.
Proof.
  apply (written_item_is_a_record Sample.json_loads Sample.COLLECTION_ID
           Sample.TABLE_NAME
           (Sample.answering Sample.one_face PyNone PyNone Sample.frozen)
           (Sample.register_event
              (PyDict [("name", PyStr "A"); ("age", PyInt 30);
                       ("patient_id", PyStr "P-2")]))
           PyNone _ _ _ (Return (PyDict []))
           (surjective_pairing _)).
  - right; right; right; left. reflexivity.
  - reflexivity.
Defined.

(** ** From registration to identification *)

(** An identification whose query returned a first item: the response is
    made of that item's flattening. *)
Lemma identify_record jl cid tn th w event ctx out tr res match_ similarity q item :
  invocation w (identify_patient.handler jl cid tn th event ctx) = (out, tr) ->
  returned reko_search_faces_by_image res tr ->
  first_of "FaceMatches" res = Return match_ ->
  Py.getitem match_ "Similarity" = Return similarity ->
  returned ddb_query q tr ->
  first_of "Items" q = Return (PyDict item) ->
  out = match identify_patient.flatten item [] with
        | Raise e => Return (failure e)
        | Return result =>
            caught (identify_patient._resp 200
                      (PyDict (Py.setitem result "similarity" similarity)))
        end.
Proof.
  intros H (c1 & Hin1 & Hc1) Hmatch Hsim (c2 & Hin2 & Hc2) Hitem.
  destruct (first_of_listed _ _ _ Hmatch) as (l1 & Hl1 & Hlt1).
  destruct (first_of_listed _ _ _ Hitem) as (l2 & Hl2 & Hlt2).
  rewrite identify_stages in H. stages H.
  all: in_trace Hin1; try discriminate Hc1; try congruence.
  all: in_trace Hin2; try discriminate Hc2; try congruence.
  all: unify_steps; try congruence.
  all: try match goal with
           | E : Py.items (PyDict _) = Return _ |- _ =>
               unfold Py.items in E; inversion E; subst; clear E
           | E : Py.items (PyDict _) = Raise _ |- _ => discriminate E
           end.
  all: match goal with
       | E : identify_patient.flatten _ _ = _ |- _ => rewrite E; reflexivity
       end.
Qed.

(** X15. What a registration writes, an identification gives back: when
    the item of a registration's [put_item] (holding no bytes) is the first
    item a later identification's query returns, that identification is
    answered 200 with every string attribute of the registration under its
    name (other than [similarity]), with the registered [patient_id] unless
    an attribute of that name replaced it, and with the recognizer's
    similarity. *)
Theorem registered_patient_is_identified
    jl cid tn th
    w1 event1 ctx1 out1 tr1 c r req patient_id attrs item
    w2 event2 ctx2 out2 tr2 res match_ similarity q :
  invocation w1 (register_patient.handler jl cid tn event1 ctx1) = (out1, tr1) ->
  In (Called c r) tr1 ->
  c = put_item_call tn item ->
  request_body jl event1 = Return req ->
  Py.getitem req "patient_id" = Return patient_id ->
  Py.get req "attributes" (PyDict []) = Return (PyDict attrs) ->
  NoDup (map fst attrs) ->
  json.serializable (PyDict item) = true ->
  invocation w2 (identify_patient.handler jl cid tn th event2 ctx2) = (out2, tr2) ->
  returned reko_search_faces_by_image res tr2 ->
  first_of "FaceMatches" res = Return match_ ->
  Py.getitem match_ "Similarity" = Return similarity ->
  json.serializable similarity = true ->
  returned ddb_query q tr2 ->
  first_of "Items" q = Return (PyDict item) ->
  exists result,
    out2 = Return (json_response 200 (PyDict result))
    /\ (forall k s, k <> "similarity" -> Py.lookup k attrs = Some (PyStr s) ->
                    Py.lookup k result = Some (PyStr s))
    /\ ((forall s, ~ In ("patient_id", PyStr s) attrs) ->
        Py.lookup "patient_id" result = Some patient_id)
    /\ Py.lookup "similarity" result = Some similarity.
Proof.
  intros H1 Hin Hcall Hreq Hpid Hattrs Hnd Si H2 Hsearch Hmatch Hsim Ss Hquery Hitem.
  assert (Hc : call_api c = ddb_put_item) by (subst c; reflexivity).
  destruct (register_put_item _ _ _ _ _ _ _ _ _ _ H1 Hin Hc)
    as (req' & image_b64 & patient_id' & attrs' & img & c0 & idx & record & face_id
        & created & updated & B & I & P & A & D & C0 & F & FI & T & K & O).
  rewrite Hreq in B; inversion B; subst req'.
  rewrite Hattrs in A; inversion A; subst attrs'.
  rewrite Hpid in P; inversion P; subst patient_id'.
  subst c. cbn in K. inversion K; subst item. clear K.
  destruct (core_item_record patient_id face_id created updated) as (C1 & C2 & _).
  destruct (merge_record attrs _ C1 C2) as (M1 & M2 & _).
  set (item := merge attrs (core_item patient_id face_id created updated)) in *.
  assert (Htyped : Forall (fun kv => typed_value (snd kv) <> None) item).
  { rewrite Forall_forall in *. intros kv Hkv.
    destruct (M2 kv Hkv) as [(x & ->)|(t & ->)]; discriminate. }
  destruct (flatten_total item [] Htyped) as (result & Hflat).
  pose proof (identify_record _ _ _ _ _ _ _ _ _ _ _ _ _ _ H2 Hsearch Hmatch Hsim Hquery Hitem)
    as Hout.
  rewrite Hflat in Hout.
  pose proof (flatten_serializable _ _ _ Hflat Si eq_refl) as Sr.
  pose proof (setitem_serializable _ "similarity" _ Sr Ss) as Sr'.
  unfold caught, identify_patient._resp, json.dumps in Hout. rewrite Sr' in Hout.
  destruct (flatten_lookup _ _ _ Hflat M1) as (F1 & F2).
  eexists. split; [exact Hout|]. split; [|split].
  - intros k s Hk Hs.
    rewrite lookup_setitem_other by assumption.
    destruct (F1 k _ (merge_string attrs _ k s Hnd Hs)) as (x & Hx & Hr).
    cbn in Hx. inversion Hx; subst. assumption.
  - intros Hno.
    rewrite lookup_setitem_other by discriminate.
    assert (Hk : Py.lookup "patient_id" item = Some (PyDict [("S", patient_id)])).
    { unfold item. rewrite merge_untouched by assumption. reflexivity. }
    destruct (F1 _ _ Hk) as (x & Hx & Hr).
    cbn in Hx. inversion Hx; subst. assumption.
  - apply lookup_setitem_same.
Qed.

(** X15 at work: patient P-1 registered with a name, then recognised. *)
Lemma registered_patient_is_identified_witness :
  let item := [("patient_id", PyDict [("S", PyStr "P-1")]);
               ("face_id", PyDict [("S", PyStr "face-1")]);
               ("created_at", PyDict [("N", PyStr "1700000000000")]);
               ("updated_at", PyDict [("N", PyStr "1700000000000")]);
               ("name", PyDict [("S", PyStr "A")])] in
  let w2 := Sample.answering PyNone Sample.one_match (Sample.one_item item) Sample.frozen in
  exists result,
    fst (Sample.identify w2 (Sample.identify_event "QUJD"))
    = Return (json_response 200 (PyDict result))
    /\ (forall k s, k <> "similarity" ->
                    Py.lookup k [("name", PyStr "A"); ("age", PyInt 30)] = Some (PyStr s) ->
                    Py.lookup k result = Some (PyStr s))
    /\ ((forall s, ~ In ("patient_id", PyStr s) [("name", PyStr "A"); ("age", PyInt 30)]) ->
        Py.lookup "patient_id" result = Some (PyStr "P-1"))
    /\ Py.lookup "similarity" result = Some (PyFloat 97.5).
Proof.
  cbv zeta.
  set (item := [("patient_id", PyDict [("S", PyStr "P-1")]);
                ("face_id", PyDict [("S", PyStr "face-1")]);
                ("created_at", PyDict [("N", PyStr "1700000000000")]);
                ("updated_at", PyDict [("N", PyStr "1700000000000")]);
                ("name", PyDict [("S", PyStr "A")])]).
  set (w2 := Sample.answering PyNone Sample.one_match (Sample.one_item item)
               Sample.frozen).
  apply (registered_patient_is_identified
           Sample.json_loads Sample.COLLECTION_ID Sample.TABLE_NAME Sample.THRESHOLD
           (Sample.answering Sample.one_face PyNone PyNone Sample.frozen)
           (Sample.register_event (PyDict [("name", PyStr "A"); ("age", PyInt 30)]))
           PyNone _ _ (put_item_call Sample.TABLE_NAME item) (Return (PyDict []))
           (Sample.register_body (PyDict [("name", PyStr "A"); ("age", PyInt 30)]))
           (PyStr "P-1") [("name", PyStr "A"); ("age", PyInt 30)]
           item w2 (Sample.identify_event "QUJD") PyNone
           (fst (Sample.identify w2 (Sample.identify_event "QUJD")))
           (snd (Sample.identify w2 (Sample.identify_event "QUJD")))
           Sample.one_match
           (PyDict [("Face", PyDict [("FaceId", PyStr "face-1")]);
                    ("Similarity", PyFloat 97.5)])
           (PyFloat 97.5)
           (Sample.one_item item)
           (surjective_pairing _)).
  - right; right; right; left. reflexivity.
  - reflexivity.
  - reflexivity.
  - reflexivity.
  - reflexivity.
  - repeat constructor; cbn; intuition discriminate.
  - reflexivity.
  - apply surjective_pairing.
  - eexists. split; [left; reflexivity | reflexivity].
  - reflexivity.
  - reflexivity.
  - reflexivity.
  - eexists. split; [right; left; reflexivity | reflexivity].
  - reflexivity.
Defined.

(** ** What the handlers look at *)

(** X16. An identification depends on its input only through what the
    image decodes to: two events (and contexts) whose bodies are read and
    whose [image_base64] decode alike lead to the same calls and the same
    response in every world, whatever else the events hold. *)
Theorem identify_depends_on_image_only
    jl cid tn th w event1 ctx1 event2 ctx2 req1 req2 image1 image2 :
  request_body jl event1 = Return req1 ->
  Py.getitem req1 "image_base64" = Return image1 ->
  request_body jl event2 = Return req2 ->
  Py.getitem req2 "image_base64" = Return image2 ->
  base64.b64decode image1 = base64.b64decode image2 ->
  invocation w (identify_patient.handler jl cid tn th event1 ctx1)
  = invocation w (identify_patient.handler jl cid tn th event2 ctx2).
Proof.
  intros R1 I1 R2 I2 D. rewrite !identify_stages, R1, R2, I1, I2, D. reflexivity.
Qed.

(** X16 at work: an identification request that also carries a patient id
    and attributes. *)
Lemma identify_depends_on_image_only_witness :
  let w := Sample.answering Sample.one_face Sample.one_match Sample.no_item Sample.frozen in
  Sample.identify w (Sample.identify_event "QUJD")
  = Sample.identify w (Sample.register_event (PyDict [("name", PyStr "A")])).
Proof.
  cbv zeta.
  exact (identify_depends_on_image_only
           Sample.json_loads Sample.COLLECTION_ID Sample.TABLE_NAME Sample.THRESHOLD
           (Sample.answering Sample.one_face Sample.one_match Sample.no_item Sample.frozen)
           (Sample.identify_event "QUJD") PyNone
           (Sample.register_event (PyDict [("name", PyStr "A")])) PyNone
           (PyDict [("image_base64", PyStr "QUJD")])
           (Sample.register_body (PyDict [("name", PyStr "A")]))
           (PyStr "QUJD") (PyStr "QUJD")
           eq_refl eq_refl eq_refl eq_refl eq_refl).
Defined.

(** X17. A registration depends on its input only through what the image
    decodes to, the patient id and the attributes: two events (and
    contexts) whose bodies are read and agree on these lead to the same
    calls and the same response in every world. *)
Theorem register_depends_on_three_fields
    jl cid tn w event1 ctx1 event2 ctx2 req1 req2 image1 image2 :
  request_body jl event1 = Return req1 ->
  Py.getitem req1 "image_base64" = Return image1 ->
  request_body jl event2 = Return req2 ->
  Py.getitem req2 "image_base64" = Return image2 ->
  base64.b64decode image1 = base64.b64decode image2 ->
  Py.getitem req1 "patient_id" = Py.getitem req2 "patient_id" ->
  Py.get req1 "attributes" (PyDict []) = Py.get req2 "attributes" (PyDict []) ->
  invocation w (register_patient.handler jl cid tn event1 ctx1)
  = invocation w (register_patient.handler jl cid tn event2 ctx2).
Proof.
  intros R1 I1 R2 I2 D P A.
  rewrite !register_stages, R1, R2, I1, I2, D, P, A. reflexivity.
Qed.

(** X17 at work: a request with a field the handler does not know, and
    another context. *)
Lemma register_depends_on_three_fields_witness :
  let w := Sample.answering Sample.one_face PyNone PyNone Sample.frozen in
  invocation w (register_patient.handler Sample.json_loads Sample.COLLECTION_ID
                  Sample.TABLE_NAME (Sample.register_event (PyDict [])) PyNone)
  = invocation w (register_patient.handler Sample.json_loads Sample.COLLECTION_ID
                    Sample.TABLE_NAME
                    (PyDict [("body",
                              PyDict [("note", PyStr "urgent");
                                      ("patient_id", PyStr "P-1");
                                      ("image_base64", PyStr "QUJD")])])
                    (PyStr "context")).
Proof.
  cbv zeta.
  exact (register_depends_on_three_fields
           Sample.json_loads Sample.COLLECTION_ID Sample.TABLE_NAME
           (Sample.answering Sample.one_face PyNone PyNone Sample.frozen)
           (Sample.register_event (PyDict [])) PyNone
           (PyDict [("body",
                     PyDict [("note", PyStr "urgent");
                             ("patient_id", PyStr "P-1");
                             ("image_base64", PyStr "QUJD")])])
           (PyStr "context")
           (Sample.register_body (PyDict []))
           (PyDict [("note", PyStr "urgent");
                    ("patient_id", PyStr "P-1");
                    ("image_base64", PyStr "QUJD")])
           (PyStr "QUJD") (PyStr "QUJD")
           eq_refl eq_refl eq_refl eq_refl eq_refl eq_refl eq_refl).
Defined.

(** The decoding loop does not look at the characters it skips. *)
Lemma a2b_loop_filter data : forall quad_pos leftchar pads out,
  binascii.a2b_loop (filter base64_character data) quad_pos leftchar pads out
  = binascii.a2b_loop data quad_pos leftchar pads out.
Proof.
  induction data as [|c rest IH]; intros quad_pos leftchar pads out; [reflexivity|].
  cbn [filter]. unfold base64_character at 1.
  destruct (Ascii.eqb c "=") eqn:Epad.
  - cbn [orb]. cbn [binascii.a2b_loop]. rewrite Epad.
    destruct (2 <=? quad_pos)%N; [|apply IH].
    destruct (4 <=? quad_pos + (pads + 1))%N; [reflexivity|apply IH].
  - cbn [orb]. destruct (binascii.table_a2b_base64 c) as [v|] eqn:Etab.
    + cbn [binascii.a2b_loop]. rewrite Epad, Etab.
      destruct (quad_pos =? 0)%N; [apply IH|].
      destruct (quad_pos =? 1)%N; [apply IH|].
      destruct (quad_pos =? 2)%N; apply IH.
    + cbn [binascii.a2b_loop]. rewrite Epad, Etab. apply IH.
Qed.

Lemma forallb_filter {A} (p q : A -> bool) l :
  forallb p l = true -> forallb p (filter q l) = true.
Proof.
  induction l as [|x rest IH]; cbn; auto.
  intros H. apply andb_true_iff in H. destruct H as (Hx & Hrest).
  destruct (q x); cbn; [rewrite Hx|]; auto.
Qed.

Lemma b64decode_filter s :
  ascii_text s = true ->
  base64.b64decode (PyStr (base64_characters_of s)) = base64.b64decode (PyStr s).
Proof.
  intros Ha. unfold base64.b64decode, base64._bytes_from_decode_data,
    base64_characters_of, ascii_text in *.
  rewrite list_ascii_of_string_of_list_ascii.
  rewrite forallb_filter by assumption. rewrite Ha.
  apply a2b_loop_filter.
Qed.

(** X18. The characters of [image_base64] outside the base64 alphabet and
    the pad (spaces, line breaks, punctuation) count for nothing: an
    identification of an ASCII image text does exactly what the
    identification of that text without those characters does. *)
Theorem identify_ignores_foreign_characters
    jl cid tn th w event1 ctx1 event2 ctx2 req1 req2 s :
  request_body jl event1 = Return req1 ->
  Py.getitem req1 "image_base64" = Return (PyStr s) ->
  request_body jl event2 = Return req2 ->
  Py.getitem req2 "image_base64" = Return (PyStr (base64_characters_of s)) ->
  ascii_text s = true ->
  invocation w (identify_patient.handler jl cid tn th event1 ctx1)
  = invocation w (identify_patient.handler jl cid tn th event2 ctx2).
Proof.
  intros R1 I1 R2 I2 Ha.
  rewrite !identify_stages, R1, R2, I1, I2, (b64decode_filter s Ha). reflexivity.
Qed.

(** X18 at work: an image text with a blank and a stray mark in it. *)
Lemma identify_ignores_foreign_characters_witness :
  let w := Sample.answering PyNone Sample.one_match Sample.no_item Sample.frozen in
  Sample.identify w (Sample.identify_event "QU JD!")
  = Sample.identify w (Sample.identify_event "QUJD").
Proof.
  cbv zeta.
  exact (identify_ignores_foreign_characters
           Sample.json_loads Sample.COLLECTION_ID Sample.TABLE_NAME Sample.THRESHOLD
           (Sample.answering PyNone Sample.one_match Sample.no_item Sample.frozen)
           (Sample.identify_event "QU JD!") PyNone
           (Sample.identify_event "QUJD") PyNone
           (PyDict [("image_base64", PyStr "QU JD!")])
           (PyDict [("image_base64", PyStr "QUJD")])
           "QU JD!"
           eq_refl eq_refl eq_refl eq_refl eq_refl).
Defined.

(** ** What a status code tells the caller *)

(** Whether the response object could be serialised. *)
Ltac with_text :=
  try match goal with
      | E : match (if ?b then _ else _) with Return _ => _ | Raise _ => _ end = _ |- _ =>
          destruct b; inversion E; subst; clear E
      end.

(** X19. Whatever the event and the collaborators, a registration answers
    with the JSON header and one of the codes 201, 422 and 500, and an
    identification with the JSON header and one of 200, 404 and 500. *)
Theorem responses_are_json jl cid tn th w event ctx :
  (exists r,
     fst (invocation w (register_patient.handler jl cid tn event ctx)) = Return r
     /\ headers r = [("Content-Type", "application/json")]
     /\ In (statusCode r) [201; 422; 500]%Z)
  /\ (exists r,
        fst (invocation w (identify_patient.handler jl cid tn th event ctx)) = Return r
        /\ headers r = [("Content-Type", "application/json")]
        /\ In (statusCode r) [200; 404; 500]%Z).
Proof.
  split.
  - destruct (invocation w (register_patient.handler jl cid tn event ctx))
      as [out tr] eqn:H.
    rewrite register_stages in H. unfold caught, register_patient._resp, json.dumps in H.
    stages H; with_text; eexists; (split; [reflexivity|]); split;
      try reflexivity; cbn; auto.
  - destruct (invocation w (identify_patient.handler jl cid tn th event ctx))
      as [out tr] eqn:H.
    rewrite identify_stages in H. unfold caught, identify_patient._resp, json.dumps in H.
    stages H; with_text; eexists; (split; [reflexivity|]); split;
      try reflexivity; cbn; auto.
Qed.

Ltac listed_nothing := eexists; split; [eassumption|assumption].
Ltac listed_something := intros (? & ? & ?); congruence.

(** X20. What the code of a registration's response tells: a 201 is sent
    only after [put_item] has returned, as the last step of an invocation
    that had a face record from [index_faces] and read the clock twice; a
    422 only when [index_faces] returned and listed no face, with nothing
    read or written after it; a 500 always carries the text of an error. *)
Theorem register_status_meaning jl cid tn w event ctx r tr :
  invocation w (register_patient.handler jl cid tn event ctx) = (Return r, tr) ->
  (statusCode r = 201%Z ->
     registered r
     /\ exists c0 idx created updated item ans,
          call_api c0 = reko_index_faces
          /\ ~ lists_nothing "FaceRecords" idx
          /\ tr = [Called c0 (Return idx); Clock created; Clock updated;
                   Called (put_item_call tn item) (Return ans)])
  /\ (statusCode r = 422%Z ->
        registration_rejected r
        /\ exists c0 idx,
             call_api c0 = reko_index_faces
             /\ lists_nothing "FaceRecords" idx
             /\ tr = [Called c0 (Return idx)])
  /\ (statusCode r = 500%Z -> exists e, r = failure e).
Proof.
  intros H. rewrite register_stages in H.
  unfold caught, register_patient._resp, json.dumps in H.
  stages H; with_text.
  all: (split; [|split]); intros Hcode; try discriminate Hcode;
    try (eexists; reflexivity).
  all: try solve [split; [reflexivity|]; eexists _, _;
                  refine (conj _ (conj _ eq_refl)); [reflexivity|listed_nothing]].
  split; [unfold registered; eexists _, _; reflexivity|].
  eexists _, _, _, _, _, _.
  refine (conj _ (conj _ eq_refl)); [reflexivity|listed_something].
Qed.

(** X20 at work: a registration with a face, and one without. *)
Lemma register_status_meaning_witness :
  (exists c0 idx created updated item ans,
     call_api c0 = reko_index_faces
     /\ ~ lists_nothing "FaceRecords" idx
     /\ snd (Sample.register
               (Sample.answering Sample.one_face PyNone PyNone Sample.frozen)
               (Sample.register_event (PyDict [])))
        = [Called c0 (Return idx); Clock created; Clock updated;
           Called (put_item_call Sample.TABLE_NAME item) (Return ans)])
  /\ (exists c0 idx,
        call_api c0 = reko_index_faces
        /\ lists_nothing "FaceRecords" idx
        /\ snd (Sample.register
                  (Sample.answering Sample.no_face PyNone PyNone Sample.frozen)
                  (Sample.register_event (PyDict [])))
           = [Called c0 (Return idx)]).
Proof.
  split.
  - apply (proj1 (register_status_meaning
                    Sample.json_loads Sample.COLLECTION_ID Sample.TABLE_NAME
                    (Sample.answering Sample.one_face PyNone PyNone Sample.frozen)
                    (Sample.register_event (PyDict [])) PyNone
                    (json_response 201 (PyDict [("patient_id", PyStr "P-1");
                                                ("face_id", PyStr "face-1")]))
                    _ eq_refl) eq_refl).
  - apply (proj1 (proj2 (register_status_meaning
                    Sample.json_loads Sample.COLLECTION_ID Sample.TABLE_NAME
                    (Sample.answering Sample.no_face PyNone PyNone Sample.frozen)
                    (Sample.register_event (PyDict [])) PyNone
                    (json_response 422
                       (PyDict [("message", PyStr "No face detected or poor quality.")]))
                    _ eq_refl)) eq_refl).
Defined.

(** X21. What the code of an identification's response tells: a 200 is sent
    only when the search returned a match and the query after it returned
    an item; a 404 only when the search returned and listed no match (and
    the store was not queried) or when the query returned and listed no
    item; a 500 always carries the text of an error. *)
Theorem identify_status_meaning jl cid tn th w event ctx r tr :
  invocation w (identify_patient.handler jl cid tn th event ctx) = (Return r, tr) ->
  (statusCode r = 200%Z ->
     identified r
     /\ exists c0 res c1 q,
          call_api c0 = reko_search_faces_by_image
          /\ call_api c1 = ddb_query
          /\ ~ lists_nothing "FaceMatches" res
          /\ ~ lists_nothing "Items" q
          /\ tr = [Called c0 (Return res); Called c1 (Return q)])
  /\ (statusCode r = 404%Z ->
        (r = json_response 404 (PyDict [("message", PyStr "No confident match")])
         /\ exists c0 res,
              call_api c0 = reko_search_faces_by_image
              /\ lists_nothing "FaceMatches" res
              /\ tr = [Called c0 (Return res)])
        \/ (r = json_response 404
                  (PyDict [("message", PyStr "Face mapped but no patient record")])
            /\ exists c0 res c1 q,
                 call_api c0 = reko_search_faces_by_image
                 /\ call_api c1 = ddb_query
                 /\ ~ lists_nothing "FaceMatches" res
                 /\ lists_nothing "Items" q
                 /\ tr = [Called c0 (Return res); Called c1 (Return q)]))
  /\ (statusCode r = 500%Z -> exists e, r = failure e).
Proof.
  intros H. rewrite identify_stages in H.
  unfold caught, identify_patient._resp, json.dumps in H.
  stages H; with_text.
  all: (split; [|split]); intros Hcode; try discriminate Hcode;
    try (eexists; reflexivity).
  all: try solve [left; split; [reflexivity|]; eexists _, _;
                  refine (conj _ (conj _ eq_refl)); [reflexivity|listed_nothing]].
  all: try solve [right; split; [reflexivity|]; eexists _, _, _, _;
                  refine (conj _ (conj _ (conj _ (conj _ eq_refl))));
                  [reflexivity|reflexivity|listed_something|listed_nothing]].
  split; [eexists; reflexivity|].
  eexists _, _, _, _.
  refine (conj _ (conj _ (conj _ (conj _ eq_refl))));
    [reflexivity|reflexivity|listed_something|listed_something].
Qed.

(** X21 at work: an identification that finds the patient, and one whose
    face has no record. *)
Lemma identify_status_meaning_witness :
  let found := Sample.answering PyNone Sample.one_match
                 (Sample.one_item [("patient_id", PyDict [("S", PyStr "P-1")])])
                 Sample.frozen in
  let lost := Sample.answering PyNone Sample.one_match Sample.no_item Sample.frozen in
  let r := json_response 404
             (PyDict [("message", PyStr "Face mapped but no patient record")]) in
  (exists c0 res c1 q,
     call_api c0 = reko_search_faces_by_image
     /\ call_api c1 = ddb_query
     /\ ~ lists_nothing "FaceMatches" res
     /\ ~ lists_nothing "Items" q
     /\ snd (Sample.identify found (Sample.identify_event "QUJD"))
        = [Called c0 (Return res); Called c1 (Return q)])
  /\ ((r = json_response 404 (PyDict [("message", PyStr "No confident match")])
       /\ exists c0 res,
            call_api c0 = reko_search_faces_by_image
            /\ lists_nothing "FaceMatches" res
            /\ snd (Sample.identify lost (Sample.identify_event "QUJD"))
               = [Called c0 (Return res)])
      \/ (r = json_response 404
                (PyDict [("message", PyStr "Face mapped but no patient record")])
          /\ exists c0 res c1 q,
               call_api c0 = reko_search_faces_by_image
               /\ call_api c1 = ddb_query
               /\ ~ lists_nothing "FaceMatches" res
               /\ lists_nothing "Items" q
               /\ snd (Sample.identify lost (Sample.identify_event "QUJD"))
                  = [Called c0 (Return res); Called c1 (Return q)])).
Proof.
  cbv zeta. split.
  - apply (proj1 (identify_status_meaning
                    Sample.json_loads Sample.COLLECTION_ID Sample.TABLE_NAME
                    Sample.THRESHOLD
                    (Sample.answering PyNone Sample.one_match
                       (Sample.one_item [("patient_id", PyDict [("S", PyStr "P-1")])])
                       Sample.frozen)
                    (Sample.identify_event "QUJD") PyNone
                    (json_response 200
                       (PyDict [("patient_id", PyStr "P-1");
                                ("similarity", PyFloat 97.5%float)]))
                    _ eq_refl) eq_refl).
  - apply (proj1 (proj2 (identify_status_meaning
                    Sample.json_loads Sample.COLLECTION_ID Sample.TABLE_NAME
                    Sample.THRESHOLD
                    (Sample.answering PyNone Sample.one_match Sample.no_item
                       Sample.frozen)
                    (Sample.identify_event "QUJD") PyNone
                    (json_response 404
                       (PyDict [("message", PyStr "Face mapped but no patient record")]))
                    _ eq_refl)) eq_refl).
Defined.

(** ** Stored items the flattening cannot take *)


Lemma lookup_not_serializable key (d : dict) v :
  Py.lookup key d = Some v ->
  json.serializable v = false ->
  json.serializable (PyDict d) = false.
Proof.
  cbn. induction d as [|[k x] rest IH]; [discriminate|].
  rewrite lookup_cons. cbn. destruct (String.eqb_spec k key).
  - intros H Hv. inversion H; subst. now rewrite Hv.
  - intros H Hv. rewrite (IH H Hv). apply andb_false_r.
Qed.



(** X23. Identification: when the item the query returned is well typed and
    holds a binary value ({'B': bytes}) under a name other than
    [similarity], the patient is found and yet the response is 500: the
    result cannot be made into JSON text. *)
Theorem identify_binary_field_is_500
    jl cid tn th w event ctx out tr res match_ similarity q item k t b rest :
  invocation w (identify_patient.handler jl cid tn th event ctx) = (out, tr) ->
  returned reko_search_faces_by_image res tr ->
  first_of "FaceMatches" res = Return match_ ->
  Py.getitem match_ "Similarity" = Return similarity ->
  returned ddb_query q tr ->
  first_of "Items" q = Return (PyDict item) ->
  NoDup (map fst item) ->
  Forall (fun kv => typed_value (snd kv) <> None) item ->
  Py.lookup k item = Some (PyDict ((t, PyBytes b) :: rest)) ->
  k <> "similarity" ->
  out = Return (failure (Py.TypeError "Object of type bytes is not JSON serializable")).
Proof.
  intros H Hres Hmatch Hsim Hq Hitem Hnd Hall Hk Hne.
  rewrite (identify_record _ _ _ _ _ _ _ _ _ _ _ _ _ _ H Hres Hmatch Hsim Hq Hitem).
  destruct (flatten_total item [] Hall) as (result & Hflat).
  rewrite Hflat.
  destruct (flatten_lookup _ _ _ Hflat Hnd) as (Hin & _).
  destruct (Hin _ _ Hk) as (x & Hx & Hlook).
  cbn in Hx. inversion Hx; subst x.
  unfold caught, identify_patient._resp, json.dumps.
  rewrite (lookup_not_serializable k _ (PyBytes b)); [reflexivity| |reflexivity].
  rewrite lookup_setitem_other by congruence. assumption.
Qed.

(** X23 at work: a stored photo. *)
Lemma identify_binary_field_is_500_witness :
  let item := [("patient_id", PyDict [("S", PyStr "P-1")]);
               ("photo", PyDict [("B", PyBytes ["A"%byte])])] in
  let w := Sample.answering PyNone Sample.one_match (Sample.one_item item) Sample.frozen in
  fst (Sample.identify w (Sample.identify_event "QUJD"))
  = Return (failure (Py.TypeError "Object of type bytes is not JSON serializable")).
Proof.
  cbv zeta.
  set (item := [("patient_id", PyDict [("S", PyStr "P-1")]);
                ("photo", PyDict [("B", PyBytes ["A"%byte])])]).
  set (w := Sample.answering PyNone Sample.one_match (Sample.one_item item) Sample.frozen).
  apply (identify_binary_field_is_500
           Sample.json_loads Sample.COLLECTION_ID Sample.TABLE_NAME Sample.THRESHOLD
           w (Sample.identify_event "QUJD") PyNone
           (fst (Sample.identify w (Sample.identify_event "QUJD")))
           (snd (Sample.identify w (Sample.identify_event "QUJD")))
           Sample.one_match
           (PyDict [("Face", PyDict [("FaceId", PyStr "face-1")]);
                    ("Similarity", PyFloat 97.5%float)])
           (PyFloat 97.5%float)
           (Sample.one_item item) item "photo" "B" ["A"%byte] []
           (surjective_pairing _)).
  - eexists. split; [left; reflexivity|reflexivity].
  - reflexivity.
  - reflexivity.
  - eexists. split; [right; left; reflexivity|reflexivity].
  - reflexivity.
  - repeat constructor; cbn; intuition discriminate.
  - repeat constructor; discriminate.
  - reflexivity.
  - discriminate.
Defined.

(** ** Attributes that are no mapping *)

(** X24. Registration: when [attributes] is present and is no mapping (null,
    a list, a text), the request is not turned away at the start: the face
    is indexed and the clock read twice, and only then the response is 500
    with the AttributeError of [attrs.items()]; nothing is written. *)
Theorem register_attributes_not_a_mapping
    jl cid tn w event ctx out tr req attrs idx record face_id :
  invocation w (register_patient.handler jl cid tn event ctx) = (out, tr) ->
  request_body jl event = Return req ->
  Py.get req "attributes" (PyDict []) = Return attrs ->
  (forall d, attrs <> PyDict d) ->
  returned reko_index_faces idx tr ->
  first_of "FaceRecords" idx = Return record ->
  face_id_of record = Return face_id ->
  out = Return (failure (Py.AttributeError attrs "items"))
  /\ exists c0 created updated,
       call_api c0 = reko_index_faces
       /\ tr = [Called c0 (Return idx); Clock created; Clock updated].
Proof.
  intros H Hreq Hattrs Hno (c & Hin & Hc) Hrec Hface.
  destruct (first_of_listed _ _ _ Hrec) as (l & Hl & Hlt).
  rewrite register_stages, Hreq in H. cbv beta iota in H. rewrite Hattrs in H.
  stages H.
  all: in_trace Hin; try discriminate Hc; try congruence.
  all: unify_steps; try congruence.
  all: try match goal with
           | E : Py.items _ = Return _ |- _ =>
               apply items_dict in E; exfalso; apply (Hno _ E)
           end.
  all: match goal with
       | E : Py.items ?a = Raise _ |- _ =>
           destruct a; try discriminate E;
           unfold Py.items in E; inversion E; subst; clear E
       end.
  all: split; [reflexivity|]; eexists _, _, _;
    refine (conj _ eq_refl); reflexivity.
Qed.

(** X24 at work: null attributes. *)
Lemma register_attributes_not_a_mapping_witness :
  let w := Sample.answering Sample.one_face PyNone PyNone Sample.frozen in
  let event := Sample.register_event PyNone in
  fst (Sample.register w event)
  = Return (failure (Py.AttributeError PyNone "items"))
  /\ exists c0 created updated,
       call_api c0 = reko_index_faces
       /\ snd (Sample.register w event)
          = [Called c0 (Return Sample.one_face); Clock created; Clock updated].
Proof.
  cbv zeta.
  apply (register_attributes_not_a_mapping
           Sample.json_loads Sample.COLLECTION_ID Sample.TABLE_NAME
           (Sample.answering Sample.one_face PyNone PyNone Sample.frozen)
           (Sample.register_event PyNone) PyNone
           (fst (Sample.register
                   (Sample.answering Sample.one_face PyNone PyNone Sample.frozen)
                   (Sample.register_event PyNone)))
           (snd (Sample.register
                   (Sample.answering Sample.one_face PyNone PyNone Sample.frozen)
                   (Sample.register_event PyNone)))
           (Sample.register_body PyNone) PyNone Sample.one_face
           (PyDict [("Face", PyDict [("FaceId", PyStr "face-1");
                                     ("Confidence", PyFloat 99.5%float)])])
           (PyStr "face-1")
           (surjective_pairing _)).
  - reflexivity.
  - reflexivity.
  - discriminate.
  - eexists. split; [left; reflexivity|reflexivity].
  - reflexivity.
  - reflexivity.
Defined.

(** ** The query of an identification *)

(** X25. Identification: the store is queried only after the search has
    returned, and the query asks the index [face_id-index] of the table for
    one item whose [face_id] is the FaceId of the first match the search
    listed; further matches are not looked at. *)
Theorem identify_query_request jl cid tn th w event ctx out tr c r :
  invocation w (identify_patient.handler jl cid tn th event ctx) = (out, tr) ->
  In (Called c r) tr ->
  call_api c = ddb_query ->
  exists c0 res match_ face_id,
    call_api c0 = reko_search_faces_by_image
    /\ first_of "FaceMatches" res = Return match_
    /\ face_id_of match_ = Return face_id
    /\ c = query_call tn face_id
    /\ tr = [Called c0 (Return res); Called c r].
Proof.
  intros H Hin Hc. rewrite identify_stages in H. stages H;
    in_trace Hin; try discriminate Hc.
  all: eexists _, _, _, _;
    refine (conj _ (conj _ (conj _ (conj _ eq_refl))));
    [reflexivity|eassumption|eassumption|reflexivity].
Qed.

(** X25 at work: two matches, of which the first is asked for. *)
Lemma identify_query_request_witness :
  let res := PyDict [("FaceMatches",
                      PyList [PyDict [("Face", PyDict [("FaceId", PyStr "face-1")]);
                                      ("Similarity", PyFloat 97.5%float)];
                              PyDict [("Face", PyDict [("FaceId", PyStr "face-2")]);
                                      ("Similarity", PyFloat 99.5%float)]])] in
  let w := Sample.answering PyNone res Sample.no_item Sample.frozen in
  exists c0 res' match_ face_id,
    call_api c0 = reko_search_faces_by_image
    /\ first_of "FaceMatches" res' = Return match_
    /\ face_id_of match_ = Return face_id
    /\ query_call Sample.TABLE_NAME (PyStr "face-1") = query_call Sample.TABLE_NAME face_id
    /\ snd (Sample.identify w (Sample.identify_event "QUJD"))
       = [Called c0 (Return res');
          Called (query_call Sample.TABLE_NAME (PyStr "face-1")) (Return Sample.no_item)].
Proof.
  cbv zeta.
  apply (identify_query_request
           Sample.json_loads Sample.COLLECTION_ID Sample.TABLE_NAME Sample.THRESHOLD
           _ (Sample.identify_event "QUJD") PyNone _ _
           (query_call Sample.TABLE_NAME (PyStr "face-1")) (Return Sample.no_item)
           (surjective_pairing _)).
  - right; left. reflexivity.
  - reflexivity.
Defined.
